(** * x402 facilitator service: routing and dispatch of [src/index.ts]

    A shallow embedding of the request handlers of the facilitator
    ([POST /verify], [POST /settle], [GET /health/rpc], [GET /supported],
    [GET /health]) together with the process-wide configuration they read.

    The payment-protocol library, the schemas and the wall clock are
    collaborators of the handlers: they are gathered in the record [Library]
    and every statement below quantifies over them.  A handler is a
    computation in a small state-and-exception monad whose state holds the
    number of clock readings made so far, the handler's local [network]
    variable and the list of collaborator calls and console records it has
    produced. *)

From Stdlib Require Import ZArith.
From stdpp Require Import base strings list gmap.

Local Open Scope Z_scope.
Local Open Scope string_scope.
Local Open Scope list_scope.

(** ** JavaScript values the handlers inspect *)

(** Anything a [throw] can carry.  The handlers only distinguish
    [error instanceof Error] (then they read [message] and [stack]) from
    every other value (of which only [String(error)] is ever used). *)
Inductive thrown : Type :=
| ErrorObject (message stack : string)
| NonError (text : string).

#[global] Instance thrown_eq_dec : EqDecision thrown.
Proof. solve_decision. Defined.

(** Truthiness of a string: only the empty string is falsy. *)
Definition truthy (s : string) : bool := bool_decide (s ≠ "").

(** [error instanceof Error ? error.message : fallback] *)
Definition message_or (fallback : string) (error : thrown) : string :=
  match error with
  | ErrorObject message _ => message
  | NonError _ => fallback
  end.

(** [error instanceof Error ? error.message : String(error)] *)
Definition message_or_string (error : thrown) : string :=
  match error with
  | ErrorObject message _ => message
  | NonError text => text
  end.

(** [error instanceof Error ? error.stack : undefined] *)
Definition stack_or_undefined (error : thrown) : option string :=
  match error with
  | ErrorObject _ stack => Some stack
  | NonError _ => None
  end.

(** [value || fallback] on an optional string. *)
Definition or_else (value : option string) (fallback : string) : string :=
  match value with
  | Some s => if truthy s then s else fallback
  | None => fallback
  end.

(** Result of evaluating an expression that may throw. *)
Inductive completion (A : Type) : Type :=
| Normal (value : A)
| Throw (error : thrown).
Arguments Normal {A} value.
Arguments Throw {A} error.

(** ** Process configuration (lines 48-77) *)

(** The environment variables after [process.env.X || ""]. *)
Record Env : Type := {
  EVM_PRIVATE_KEY : string;
  SVM_PRIVATE_KEY : string;
  SVM_RPC_URL : string;
  SEPOLIA_RPC_URL : string;
  FILECOIN_CALIBRATION_RPC_URL : string
}.

Record SvmConfig : Type := { rpcUrl : string }.

(** [rpcUrls] is an object literal read with [Object.entries]: the order of
    its keys is the order of insertion, hence an association list. *)
Record EvmConfig : Type := { rpcUrls : list (string * string) }.

Record X402Config : Type := {
  svmConfig : option SvmConfig;
  evmConfig : option EvmConfig
}.

(** Spreading [cond && { ... }] contributes the object's keys when [cond] is
    a non-empty string and nothing when it is the empty string. *)
Definition x402Config (env : Env) : option X402Config :=
  if truthy (SVM_RPC_URL env) || truthy (SEPOLIA_RPC_URL env)
     || truthy (FILECOIN_CALIBRATION_RPC_URL env)
  then Some {|
    svmConfig :=
      if truthy (SVM_RPC_URL env)
      then Some {| rpcUrl := SVM_RPC_URL env |} else None;
    evmConfig :=
      if truthy (SEPOLIA_RPC_URL env) || truthy (FILECOIN_CALIBRATION_RPC_URL env)
      then Some {| rpcUrls :=
        (if truthy (SEPOLIA_RPC_URL env)
         then [("sepolia", SEPOLIA_RPC_URL env)] else [])
        ++ (if truthy (FILECOIN_CALIBRATION_RPC_URL env)
            then [("filecoin-calibration", FILECOIN_CALIBRATION_RPC_URL env)]
            else []) |}
      else None
  |}
  else None.

(** The start-up guard of lines 56-60: the process exits unless one of the
    two private keys is present. *)
Definition starts (env : Env) : bool :=
  truthy (EVM_PRIVATE_KEY env) || truthy (SVM_PRIVATE_KEY env).

(** Property read on an association list standing for a plain object. *)
Fixpoint property (entries : list (string * string)) (key : string)
  : option string :=
  match entries with
  | [] => None
  | (k, v) :: rest => if bool_decide (k = key) then Some v else property rest key
  end.

(** [x402Config?.evmConfig?.rpcUrls?.[network]] *)
Definition evm_rpcUrl (config : option X402Config) (network : string)
  : option string :=
  match config with
  | Some c =>
      match evmConfig c with
      | Some e => property (rpcUrls e) network
      | None => None
      end
  | None => None
  end.

(** ** Data exchanged with the payment-protocol library *)

Record PaymentRequirements (Terms : Type) : Type := {
  network : string;
  terms : Terms
}.
Arguments network {Terms} _.
Arguments terms {Terms} _.

Record SettleResponse : Type := {
  success : bool;
  transaction : string;
  errorReason : option string;
  settled_network : string;
  payer : option string
}.

Record HealthCheck : Type := {
  healthy : bool;
  latency : option Z;
  error : option string
}.

(** [extra] is absent on the EVM kinds and is [{ feePayer }] on the SVM
    kinds, where [feePayer] itself may be [undefined]. *)
Record SupportedPaymentKind : Type := {
  x402Version : Z;
  scheme : string;
  kind_network : string;
  extra : option (option string)
}.

(** The collaborators of the handlers.  The schemas, the two registries,
    the provisioning functions and the verify and settle operations come
    from the payment-protocol library; [clock] is the sequence of values
    the wall clock returns on successive readings. *)
Record Library : Type := {
  Json : Type;
  Terms : Type;
  PaymentPayload : Type;
  ConnectedClient : Type;
  Signer : Type;
  VerifyResponse : Type;
  PaymentRequirementsSchema_parse : Json → completion (PaymentRequirements Terms);
  PaymentPayloadSchema_parse : Json → completion PaymentPayload;
  SupportedEVMNetworks : list string;
  SupportedSVMNetworks : list string;
  createConnectedClient : string → option string → completion ConnectedClient;
  getBlockNumber : ConnectedClient → completion Z;
  createSigner : string → string → option string → completion Signer;
  isSvmSignerWallet : Signer → bool;
  address : Signer → string;
  verify : Signer + ConnectedClient → PaymentPayload →
           PaymentRequirements Terms → option X402Config →
           completion VerifyResponse;
  settle : Signer → PaymentPayload → PaymentRequirements Terms →
           option X402Config → completion SettleResponse;
  clock : nat → Z
}.

(** ** Observable steps of a handler *)

Inductive client_kind : Type := ReadOnlyClient | SigningIdentity.

Inductive event : Type :=
| ParseRequirements
| ParsePayload
| CreateConnectedClient (network : string) (rpcUrl : option string)
| GetBlockNumber (network : string)
| CreateSigner (network privateKey : string) (rpcUrl : option string)
| Verify (client : client_kind) (network : string)
| Settle (network : string)
| ConsoleError (tag message : string) (stack : option string)
               (network rpcUrl : string) (timestamp : Z)
| ConsoleLog (tag : string) (response_success : bool)
             (transaction errorReason network payer : string) (timestamp : Z).

#[global] Instance client_kind_eq_dec : EqDecision client_kind.
Proof. solve_decision. Defined.

#[global] Instance event_eq_dec : EqDecision event.
Proof. solve_decision. Defined.

(** The calls that may reach a network: provisioning, the chain-height
    probe and the external verify and settle operations. *)
Definition network_call (e : event) : bool :=
  match e with
  | CreateConnectedClient _ _ | GetBlockNumber _ | CreateSigner _ _ _
  | Verify _ _ | Settle _ => true
  | _ => false
  end.

(** Provisioning of a client or of a signer. *)
Definition provisioning (e : event) : bool :=
  match e with
  | CreateConnectedClient _ _ | CreateSigner _ _ _ => true
  | _ => false
  end.

(** The external verify or settle operation. *)
Definition invocation (e : event) : bool :=
  match e with
  | Verify _ _ | Settle _ => true
  | _ => false
  end.

(** ** The handler monad *)

Record machine : Type := {
  readings : nat;                (* clock readings made so far *)
  var_network : option string;   (* [let network: string | undefined] *)
  trace : list event             (* steps taken, oldest first *)
}.

Definition start_machine : machine :=
  {| readings := 0; var_network := None; trace := [] |}.

Definition Js (A : Type) : Type := machine → completion A * machine.

Definition ret {A} (a : A) : Js A := fun m => (Normal a, m).

Definition bind {A B} (c : Js A) (k : A → Js B) : Js B :=
  fun m =>
    match c m with
    | (Normal a, m') => k a m'
    | (Throw e, m') => (Throw e, m')
    end.

Declare Scope js_scope.
Delimit Scope js_scope with js.
Notation "x <- c ;; k" := (bind c (fun x => k))
  (at level 100, c at next level, right associativity) : js_scope.
Notation "c ;;; k" := (bind c (fun _ => k))
  (at level 100, right associativity) : js_scope.
Local Open Scope js_scope.

(** [try { body } catch (error) { handler }] *)
Definition try_catch {A} (body : Js A) (handler : thrown → Js A) : Js A :=
  fun m =>
    match body m with
    | (Normal a, m') => (Normal a, m')
    | (Throw e, m') => handler e m'
    end.

Definition record_event (e : event) : Js unit :=
  fun m => (Normal tt,
            {| readings := readings m; var_network := var_network m;
               trace := trace m ++ [e] |}).

(** A call of a collaborator: the call is recorded, then it returns or
    throws. *)
Definition call {A} (e : event) (outcome : completion A) : Js A :=
  record_event e ;;; (fun m => (outcome, m)).

Definition set_network (n : string) : Js unit :=
  fun m => (Normal tt,
            {| readings := readings m; var_network := Some n;
               trace := trace m |}).

Definition get_network : Js (option string) :=
  fun m => (Normal (var_network m), m).

(** Outcome of a handler run on a fresh machine: the handler's completion
    and the steps it took.  A [Throw] completion of the whole handler is a
    rejected handler promise: no response has been written. *)
Definition run {A} (c : Js A) : completion A * list event :=
  let (r, m) := c start_machine in (r, trace m).

Definition network_calls (t : list event) : list event :=
  List.filter network_call t.

(** ** Requests and responses *)

Section Handlers.

Context (L : Library) (env : Env).

(** The parsed JSON body of a [POST]: [express.json()] has run, the two
    properties are still unvalidated. *)
Record Request : Type := {
  paymentPayload : Json L;
  paymentRequirements : Json L
}.

Inductive body : Type :=
| JsonError (error : string)
| JsonVerify (result : VerifyResponse L)
| JsonSettle (response : SettleResponse)
| JsonHealth (status : string) (timestamp : Z) (evm svm : bool)
| JsonHealthRpc (status : string) (checks : gmap string HealthCheck)
                (timestamp : Z)
| JsonSupported (kinds : list SupportedPaymentKind).

(** [res.status(code).json(value)]; [res.json(value)] leaves the status at
    its default, 200. *)
Record Response : Type := {
  status : nat;
  json : body
}.

(** [Date.now()] and [new Date()]: one reading of the clock. *)
Definition Date_now : Js Z :=
  fun m => (Normal (clock L (readings m)),
            {| readings := S (readings m); var_network := var_network m;
               trace := trace m |}).

(** [SEPOLIA_RPC_URL || FILECOIN_CALIBRATION_RPC_URL ? "custom" : "default"] *)
Definition rpcUrl_label : string :=
  if truthy (SEPOLIA_RPC_URL env) || truthy (FILECOIN_CALIBRATION_RPC_URL env)
  then "custom" else "default".

(** ** [POST /verify] (lines 213-251) *)

Definition verify_catch (error : thrown) : Js Response :=
  network <- get_network ;;
  timestamp <- Date_now ;;
  record_event
    (ConsoleError "[VERIFY ERROR]" (message_or_string error)
       (stack_or_undefined error) (or_else network "unknown")
       rpcUrl_label timestamp) ;;;
  ret {| status := 400; json := JsonError (message_or "Invalid request" error) |}.

Definition post_verify (req : Request) : Js Response :=
  try_catch
    (paymentRequirements <-
       call ParseRequirements
         (PaymentRequirementsSchema_parse L (paymentRequirements req)) ;;
     paymentPayload <-
       call ParsePayload (PaymentPayloadSchema_parse L (paymentPayload req)) ;;
     set_network (network paymentRequirements) ;;;
     client <-
       (if bool_decide (network paymentRequirements ∈ SupportedEVMNetworks L)
        then
          if negb (truthy (EVM_PRIVATE_KEY env))
          then ret (inl {| status := 503;
                           json := JsonError "EVM payments not supported" |})
          else
            let rpcUrl := evm_rpcUrl (x402Config env) (network paymentRequirements) in
            client <-
              call (CreateConnectedClient (network paymentRequirements) rpcUrl)
                (createConnectedClient L (network paymentRequirements) rpcUrl) ;;
            ret (inr (inr client, ReadOnlyClient))
        else if bool_decide (network paymentRequirements ∈ SupportedSVMNetworks L)
        then
          if negb (truthy (SVM_PRIVATE_KEY env))
          then ret (inl {| status := 503;
                           json := JsonError "SVM payments not supported" |})
          else
            client <-
              call (CreateSigner (network paymentRequirements)
                      (SVM_PRIVATE_KEY env) None)
                (createSigner L (network paymentRequirements)
                   (SVM_PRIVATE_KEY env) None) ;;
            ret (inr (inl client, SigningIdentity))
        else
          ret (inl {| status := 400;
                      json := JsonError ("Unsupported network: "
                                         +:+ network paymentRequirements) |})) ;;
     match client with
     | inl early_return => ret early_return
     | inr (client, kind) =>
         result <-
           call (Verify kind (network paymentRequirements))
             (verify L client paymentPayload paymentRequirements
                (x402Config env)) ;;
         ret {| status := 200; json := JsonVerify result |}
     end)
    verify_catch.

(** ** [POST /settle] (lines 300-349) *)

Definition settle_catch (error : thrown) : Js Response :=
  network <- get_network ;;
  timestamp <- Date_now ;;
  record_event
    (ConsoleError "[SETTLE ERROR]" (message_or_string error)
       (stack_or_undefined error) (or_else network "unknown")
       rpcUrl_label timestamp) ;;;
  ret {| status := 400; json := JsonError (message_or "Settlement failed" error) |}.

Definition post_settle (req : Request) : Js Response :=
  try_catch
    (paymentRequirements <-
       call ParseRequirements
         (PaymentRequirementsSchema_parse L (paymentRequirements req)) ;;
     paymentPayload <-
       call ParsePayload (PaymentPayloadSchema_parse L (paymentPayload req)) ;;
     set_network (network paymentRequirements) ;;;
     signer <-
       (if bool_decide (network paymentRequirements ∈ SupportedEVMNetworks L)
        then
          if negb (truthy (EVM_PRIVATE_KEY env))
          then ret (inl {| status := 503;
                           json := JsonError "EVM payments not supported" |})
          else
            let rpcUrl := evm_rpcUrl (x402Config env) (network paymentRequirements) in
            signer <-
              call (CreateSigner (network paymentRequirements)
                      (EVM_PRIVATE_KEY env) rpcUrl)
                (createSigner L (network paymentRequirements)
                   (EVM_PRIVATE_KEY env) rpcUrl) ;;
            ret (inr signer)
        else if bool_decide (network paymentRequirements ∈ SupportedSVMNetworks L)
        then
          if negb (truthy (SVM_PRIVATE_KEY env))
          then ret (inl {| status := 503;
                           json := JsonError "SVM payments not supported" |})
          else
            signer <-
              call (CreateSigner (network paymentRequirements)
                      (SVM_PRIVATE_KEY env) None)
                (createSigner L (network paymentRequirements)
                   (SVM_PRIVATE_KEY env) None) ;;
            ret (inr signer)
        else
          ret (inl {| status := 400;
                      json := JsonError ("Unsupported network: "
                                         +:+ network paymentRequirements) |})) ;;
     match signer with
     | inl early_return => ret early_return
     | inr signer =>
         response <-
           call (Settle (network paymentRequirements))
             (settle L signer paymentPayload paymentRequirements
                (x402Config env)) ;;
         timestamp <- Date_now ;;
         record_event
           (ConsoleLog "[SETTLE RESPONSE]" (success response)
              (or_else (Some (transaction response)) "EMPTY/MISSING")
              (or_else (errorReason response) "none")
              (settled_network response)
              (or_else (payer response) "unknown") timestamp) ;;;
         ret {| status := 200; json := JsonSettle response |}
     end)
    settle_catch.

(** ** [GET /health] (lines 111-120) *)

Definition get_health : Js Response :=
  timestamp <- Date_now ;;
  ret {| status := 200;
         json := JsonHealth "healthy" timestamp
                   (truthy (EVM_PRIVATE_KEY env)) (truthy (SVM_PRIVATE_KEY env)) |}.

(** ** [GET /health/rpc] (lines 122-179) *)

(** Body of the loop over the EVM endpoints: one probe. *)
Definition probe_evm (networkName rpcUrl : string) : Js HealthCheck :=
  start <- Date_now ;;
  try_catch
    (client <-
       call (CreateConnectedClient networkName (Some rpcUrl))
         (createConnectedClient L networkName (Some rpcUrl)) ;;
     blockNumber <- call (GetBlockNumber networkName) (getBlockNumber L client) ;;
     finish <- Date_now ;;
     ret {| healthy := bool_decide (0 < blockNumber);
            latency := Some (finish - start);
            error := None |})
    (fun error =>
       finish <- Date_now ;;
       ret {| healthy := false;
              latency := Some (finish - start);
              error := Some (message_or "Unknown error" error) |}).

(** [for (const [networkName, rpcUrl] of Object.entries(rpcUrls))] *)
Fixpoint check_evm (entries : list (string * string))
    (checks : gmap string HealthCheck) : Js (gmap string HealthCheck) :=
  match entries with
  | [] => ret checks
  | (networkName, rpcUrl) :: rest =>
      if negb (truthy rpcUrl) then check_evm rest checks
      else
        check <- probe_evm networkName rpcUrl ;;
        check_evm rest (<[networkName := check]> checks)
  end.

Definition check_svm (checks : gmap string HealthCheck)
  : Js (gmap string HealthCheck) :=
  start <- Date_now ;;
  try_catch
    (signer <-
       call (CreateSigner "solana-devnet" (SVM_PRIVATE_KEY env) None)
         (createSigner L "solana-devnet" (SVM_PRIVATE_KEY env) None) ;;
     if isSvmSignerWallet L signer
     then
       finish <- Date_now ;;
       ret (<["solana-devnet" :=
               {| healthy := true; latency := Some (finish - start);
                  error := None |}]> checks)
     else ret checks)
    (fun error =>
       finish <- Date_now ;;
       ret (<["solana-devnet" :=
               {| healthy := false; latency := Some (finish - start);
                  error := Some (message_or "Unknown error" error) |}]> checks)).

(** [Object.values(checks)] *)
Definition Object_values (checks : gmap string HealthCheck) : list HealthCheck :=
  (map_to_list checks).*2.

(** The networks probed and their entries, before the verdict. *)
Definition health_checks : Js (gmap string HealthCheck) :=
  checks <-
    match x402Config env with
    | Some {| evmConfig := Some e |} =>
        if truthy (EVM_PRIVATE_KEY env) then check_evm (rpcUrls e) ∅ else ret ∅
    | _ => ret ∅
    end ;;
  if truthy (SVM_RPC_URL env) && truthy (SVM_PRIVATE_KEY env)
  then check_svm checks
  else ret checks.

Definition get_health_rpc : Js Response :=
  checks <- health_checks ;;
  let allHealthy := forallb healthy (Object_values checks) in
  let status := if allHealthy then "healthy" else "degraded" in
  timestamp <- Date_now ;;
  ret {| status := if allHealthy then 200%nat else 503%nat;
         json := JsonHealthRpc status checks timestamp |}.

(** ** [GET /supported] (lines 261-298) *)

Definition exact_kind (network : string) (extra : option (option string))
  : SupportedPaymentKind :=
  {| x402Version := 1; scheme := "exact"; kind_network := network;
     extra := extra |}.

Definition evm_kinds : list SupportedPaymentKind :=
  [ exact_kind "sepolia" None; exact_kind "base-sepolia" None;
    exact_kind "base" None; exact_kind "mainnet" None;
    exact_kind "polygon" None; exact_kind "avalanche" None;
    exact_kind "filecoin" None; exact_kind "filecoin-calibration" None ].

Definition svm_kinds (feePayer : option string) : list SupportedPaymentKind :=
  [ exact_kind "solana-devnet" (Some feePayer);
    exact_kind "solana" (Some feePayer) ].

(** The handler has no [try]: a [createSigner] that throws rejects the
    handler's promise before [res.json] is reached. *)
Definition get_supported : Js Response :=
  let kinds := if truthy (EVM_PRIVATE_KEY env) then evm_kinds else [] in
  kinds <-
    (if truthy (SVM_PRIVATE_KEY env)
     then
       signer <-
         call (CreateSigner "solana-devnet" (SVM_PRIVATE_KEY env) None)
           (createSigner L "solana-devnet" (SVM_PRIVATE_KEY env) None) ;;
       let feePayer :=
         if isSvmSignerWallet L signer then Some (address L signer) else None in
       ret (kinds ++ svm_kinds feePayer)
     else ret kinds) ;;
  ret {| status := 200; json := JsonSupported kinds |}.

End Handlers.

Arguments JsonError {L} error.
Arguments JsonVerify {L} result.
Arguments JsonSettle {L} response.
Arguments JsonHealth {L} status timestamp evm svm.
Arguments JsonHealthRpc {L} status checks timestamp.
Arguments JsonSupported {L} kinds.
Arguments status {L} _.
Arguments json {L} _.
Arguments paymentPayload {L} _.
Arguments paymentRequirements {L} _.

(** ** Families, credentials and the responses of the error paths *)

Inductive Family : Type := EVM | SVM.

#[global] Instance Family_eq_dec : EqDecision Family.
Proof. solve_decision. Defined.

(** Family of a network identifier as the [if / else if / else] chain of
    the two [POST] handlers decides it: the EVM registry is consulted
    first, then the SVM registry. *)
Definition classify (L : Library) (n : string) : option Family :=
  if bool_decide (n ∈ SupportedEVMNetworks L) then Some EVM
  else if bool_decide (n ∈ SupportedSVMNetworks L) then Some SVM
  else None.

Definition family_name (f : Family) : string :=
  match f with EVM => "EVM" | SVM => "SVM" end.

Definition credential (env : Env) (f : Family) : string :=
  match f with EVM => EVM_PRIVATE_KEY env | SVM => SVM_PRIVATE_KEY env end.

(** Both schema validations, in the order the handlers run them. *)
Definition validate (L : Library) (req : Request L)
  : completion (PaymentRequirements (Terms L) * PaymentPayload L) :=
  match PaymentRequirementsSchema_parse L (paymentRequirements req) with
  | Throw e => Throw e
  | Normal reqs =>
      match PaymentPayloadSchema_parse L (paymentPayload req) with
      | Throw e => Throw e
      | Normal payload => Normal (reqs, payload)
      end
  end.

Definition unsupported_network {L} (n : string) : Response L :=
  {| status := 400; json := JsonError ("Unsupported network: " +:+ n) |}.

Definition payments_not_supported {L} (f : Family) : Response L :=
  {| status := 503; json := JsonError (family_name f +:+ " payments not supported") |}.

Definition bad_request {L} (message : string) : Response L :=
  {| status := 400; json := JsonError message |}.

(** The record written by [console.error] in the two [catch] blocks; the
    clock has not been read before on these paths. *)
Definition error_record (L : Library) (env : Env) (tag : string)
    (n : option string) (e : thrown) : event :=
  ConsoleError tag (message_or_string e) (stack_or_undefined e)
    (or_else n "unknown") (rpcUrl_label env) (clock L 0).

(** ** The outcomes of steps 4 and 5, stated once *)

Section Steps.

Context (L : Library) (env : Env).
Context (reqs : PaymentRequirements (Terms L)) (payload : PaymentPayload L).

Local Abbreviation n := (network reqs).
Local Abbreviation config := (x402Config env).

(** What a [catch] block makes of an exception raised after [steps]. *)
Definition caught (tag fallback : string) (steps : list event) (e : thrown)
  : completion (Response L) * list event :=
  (Normal (bad_request (message_or fallback e)),
   steps ++ [error_record L env tag (Some n) e]).

(** The record written by [console.log] after a settlement returned. *)
Definition settle_record (response : SettleResponse) : event :=
  ConsoleLog "[SETTLE RESPONSE]" (success response)
    (or_else (Some (transaction response)) "EMPTY/MISSING")
    (or_else (errorReason response) "none")
    (settled_network response)
    (or_else (payer response) "unknown") (clock L 0).

(** Steps 4 and 5 of [POST /settle] once the signer's key and endpoint are
    chosen. *)
Definition settle_with (key : string) (rpc : option string)
  : completion (Response L) * list event :=
  let steps := [ParseRequirements; ParsePayload; CreateSigner n key rpc] in
  match createSigner L n key rpc with
  | Throw e => caught "[SETTLE ERROR]" "Settlement failed" steps e
  | Normal signer =>
      let steps := steps ++ [Settle n] in
      match settle L signer payload reqs config with
      | Throw e => caught "[SETTLE ERROR]" "Settlement failed" steps e
      | Normal response =>
          (Normal {| status := 200; json := JsonSettle response |},
           steps ++ [settle_record response])
      end
  end.

(** Step 4 or step 5 of [POST /verify] throws [e]. *)
Inductive verify_raises (e : thrown) : Prop :=
| read_client_provisioning_throws :
    classify L n = Some EVM → EVM_PRIVATE_KEY env ≠ "" →
    createConnectedClient L n (evm_rpcUrl config n) = Throw e →
    verify_raises e
| verification_with_client_throws client :
    classify L n = Some EVM → EVM_PRIVATE_KEY env ≠ "" →
    createConnectedClient L n (evm_rpcUrl config n) = Normal client →
    verify L (inr client) payload reqs config = Throw e →
    verify_raises e
| svm_signer_provisioning_throws :
    classify L n = Some SVM → SVM_PRIVATE_KEY env ≠ "" →
    createSigner L n (SVM_PRIVATE_KEY env) None = Throw e →
    verify_raises e
| verification_with_signer_throws signer :
    classify L n = Some SVM → SVM_PRIVATE_KEY env ≠ "" →
    createSigner L n (SVM_PRIVATE_KEY env) None = Normal signer →
    verify L (inl signer) payload reqs config = Throw e →
    verify_raises e.

(** Step 4 or step 5 of [POST /settle] throws [e]. *)
Inductive settle_raises (e : thrown) : Prop :=
| evm_signer_throws :
    classify L n = Some EVM → EVM_PRIVATE_KEY env ≠ "" →
    createSigner L n (EVM_PRIVATE_KEY env) (evm_rpcUrl config n) = Throw e →
    settle_raises e
| evm_settlement_throws signer :
    classify L n = Some EVM → EVM_PRIVATE_KEY env ≠ "" →
    createSigner L n (EVM_PRIVATE_KEY env) (evm_rpcUrl config n) = Normal signer →
    settle L signer payload reqs config = Throw e →
    settle_raises e
| svm_signer_throws :
    classify L n = Some SVM → SVM_PRIVATE_KEY env ≠ "" →
    createSigner L n (SVM_PRIVATE_KEY env) None = Throw e →
    settle_raises e
| svm_settlement_throws signer :
    classify L n = Some SVM → SVM_PRIVATE_KEY env ≠ "" →
    createSigner L n (SVM_PRIVATE_KEY env) None = Normal signer →
    settle L signer payload reqs config = Throw e →
    settle_raises e.

End Steps.

(** A handler answers [r] and no call that may reach a network was made. *)
Definition responds_without_network_calls {L} (handler : Js (Response L))
    (r : Response L) : Prop :=
  ∃ steps, run handler = (Normal r, steps) ∧ network_calls steps = [].

(** ** What is provisioned, and with which endpoint *)

(** "A read-only connected client, never a signing identity": some client
    is created and no signer is. *)
Definition provisions_read_only_client (steps : list event) : Prop :=
  (∃ n rpc, CreateConnectedClient n rpc ∈ steps)
  ∧ ∀ n key rpc, CreateSigner n key rpc ∉ steps.

(** The endpoint a provisioning call was given. *)
Definition event_rpcUrl (e : event) : option string :=
  match e with
  | CreateConnectedClient _ rpc | CreateSigner _ _ rpc => rpc
  | _ => None
  end.

(** The custom endpoint the configuration holds for a network: one per
    network in [evmConfig.rpcUrls] for the EVM family, the single
    [svmConfig.rpcUrl] for the SVM family. *)
Definition custom_rpc_endpoint (L : Library) (env : Env) (n : string)
  : option string :=
  match classify L n with
  | Some EVM => evm_rpcUrl (x402Config env) n
  | Some SVM =>
      match x402Config env with
      | Some c => rpcUrl <$> svmConfig c
      | None => None
      end
  | None => None
  end.

Definition provisioned_with (steps : list event) (endpoint : option string)
  : Prop :=
  ∃ e, e ∈ steps ∧ provisioning e = true ∧ event_rpcUrl e = endpoint.

(** ** The probes of [GET /health/rpc] *)

Section Probes.

Context (L : Library) (env : Env).

(** Outcome of the liveness probe of an EVM endpoint: the chain height, or
    what [createConnectedClient] or [getBlockNumber] threw. *)
Definition evm_probe (n url : string) : completion Z :=
  match createConnectedClient L n (Some url) with
  | Throw e => Throw e
  | Normal client => getBlockNumber L client
  end.

(** The entry the loop writes for a probe outcome. *)
Definition evm_entry (outcome : completion Z) (elapsed : Z) : HealthCheck :=
  match outcome with
  | Normal blockNumber =>
      {| healthy := bool_decide (0 < blockNumber); latency := Some elapsed;
         error := None |}
  | Throw e =>
      {| healthy := false; latency := Some elapsed;
         error := Some (message_or "Unknown error" e) |}
  end.

(** The entry of [solana-devnet] for an outcome of [createSigner]; a signer
    that is not an SVM wallet leaves no entry. *)
Definition svm_entry (outcome : completion (Signer L)) (elapsed : Z)
  : option HealthCheck :=
  match outcome with
  | Normal signer =>
      if isSvmSignerWallet L signer
      then Some {| healthy := true; latency := Some elapsed; error := None |}
      else None
  | Throw e =>
      Some {| healthy := false; latency := Some elapsed;
              error := Some (message_or "Unknown error" e) |}
  end.

(** The entries [(networkName, rpcUrl)] the loop of the handler visits:
    those of [evmConfig.rpcUrls] when the guard of line 126 holds, none
    otherwise. *)
Definition evm_endpoints : list (string * string) :=
  match x402Config env with
  | Some {| evmConfig := Some e |} =>
      if truthy (EVM_PRIVATE_KEY env) then rpcUrls e else []
  | _ => []
  end.

(** The guard of line 151. *)
Definition svm_probed : bool :=
  truthy (SVM_RPC_URL env) && truthy (SVM_PRIVATE_KEY env).

End Probes.

(** ** Vocabulary for the further properties *)

(** The environment with another EVM private key. *)
Definition with_evm_key (env : Env) (key : string) : Env :=
  {| EVM_PRIVATE_KEY := key;
     SVM_PRIVATE_KEY := SVM_PRIVATE_KEY env;
     SVM_RPC_URL := SVM_RPC_URL env;
     SEPOLIA_RPC_URL := SEPOLIA_RPC_URL env;
     FILECOIN_CALIBRATION_RPC_URL := FILECOIN_CALIBRATION_RPC_URL env |}.

(** Records written by [console.error]. *)
Definition console_error (e : event) : bool :=
  match e with
  | ConsoleError _ _ _ _ _ _ => true
  | _ => false
  end.

(** The calls [GET /health/rpc] may make: a client and a chain-height read
    for an endpoint the loop visits, and the signer of [solana-devnet]. *)
Definition health_call (env : Env) (e : event) : Prop :=
  (∃ n url, (n, url) ∈ evm_endpoints env
            ∧ (e = CreateConnectedClient n (Some url) ∨ e = GetBlockNumber n))
  ∨ e = CreateSigner "solana-devnet" (SVM_PRIVATE_KEY env) None.

(** What every entry of [checks] satisfies: its latency is the difference
    of two successive clock readings, and it carries an error only when it
    is unhealthy. *)
Definition well_formed_entry (L : Library) (c : HealthCheck) : Prop :=
  (∃ j, latency c = Some (clock L (S j) - clock L j))
  ∧ (is_Some (error c) → healthy c = false).

(** The [Networks:] line printed once the server listens (line 356). *)
Definition networks_banner (env : Env) : string :=
  (if truthy (EVM_PRIVATE_KEY env) then "EVM" else "")
  +:+ (if truthy (EVM_PRIVATE_KEY env) && truthy (SVM_PRIVATE_KEY env)
       then " + " else "")
  +:+ (if truthy (SVM_PRIVATE_KEY env) then "Solana" else "").

(** The key and the endpoint [POST /settle] hands to [createSigner]. *)
Definition settle_endpoint (env : Env) (f : Family) (n : string)
  : option string :=
  match f with
  | EVM => evm_rpcUrl (x402Config env) n
  | SVM => None
  end.

(** ** A concrete library, for running the handlers *)

Module Demo.

Definition zod_error : thrown :=
  ErrorObject "Required" "ZodError: Required at PaymentRequirementsSchema".

Definition rpc_error : thrown :=
  ErrorObject "fetch failed" "TypeError: fetch failed at node:internal".

Definition key_error : thrown :=
  ErrorObject "Invalid private key" "Error: Invalid private key at createSigner".

Definition receipt : SettleResponse :=
  {| success := true; transaction := "0xfeed"; errorReason := None;
     settled_network := "sepolia"; payer := Some "0xpayer" |}.

Section Outcomes.

(** The behaviour of the network: what provisioning, the chain-height
    probe, verification and settlement answer. *)
Variable client : string → completion string.
Variable height : string → completion Z.
Variable signer : completion string.
Variable wallet : bool.
Variable verdict : completion bool.
Variable settlement : completion SettleResponse.

(** A JSON value is modelled by the network it names, or [None] when it
    does not match the schema. *)
Definition library : Library := {|
  Json := option string;
  Terms := unit;
  PaymentPayload := unit;
  ConnectedClient := string;
  Signer := string;
  VerifyResponse := bool;
  PaymentRequirementsSchema_parse := fun j =>
    match j with
    | Some n => Normal {| network := n; terms := tt |}
    | None => Throw zod_error
    end;
  PaymentPayloadSchema_parse := fun j =>
    match j with Some _ => Normal tt | None => Throw zod_error end;
  SupportedEVMNetworks :=
    ["sepolia"; "base-sepolia"; "base"; "mainnet"; "polygon"; "avalanche";
     "filecoin"; "filecoin-calibration"];
  SupportedSVMNetworks := ["solana-devnet"; "solana"];
  createConnectedClient := fun n _ => client n;
  getBlockNumber := height;
  createSigner := fun _ _ _ => signer;
  isSvmSignerWallet := fun _ => wallet;
  address := fun s => s;
  verify := fun _ _ _ _ => verdict;
  settle := fun _ _ _ _ => settlement;
  clock := fun t => 1000 + 7 * Z.of_nat t
|}.

Definition request (n : string) : Request library :=
  Build_Request library (Some n) (Some n).

Definition malformed_payload (n : string) : Request library :=
  Build_Request library None (Some n).

End Outcomes.

(** A network on which everything succeeds. *)
Definition sound : Library :=
  library (fun n => Normal n) (fun _ => Normal 42) (Normal "FeePayer111")
    true (Normal true) (Normal receipt).

(** A network whose endpoints do not answer. *)
Definition unreachable : Library :=
  library (fun _ => Throw rpc_error) (fun _ => Throw rpc_error)
    (Throw key_error) true (Throw rpc_error) (Throw rpc_error).

Definition evm_only : Env :=
  {| EVM_PRIVATE_KEY := "0xabc"; SVM_PRIVATE_KEY := ""; SVM_RPC_URL := "";
     SEPOLIA_RPC_URL := ""; FILECOIN_CALIBRATION_RPC_URL := "" |}.

Definition both_families : Env :=
  {| EVM_PRIVATE_KEY := "0xabc"; SVM_PRIVATE_KEY := "svm-secret";
     SVM_RPC_URL := "https://solana.example";
     SEPOLIA_RPC_URL := "https://sepolia.example";
     FILECOIN_CALIBRATION_RPC_URL := "https://calibration.example" |}.

End Demo.

Module HealthDemo.

(** Sepolia's endpoint does not answer; Filecoin Calibration's and Solana's
    do. *)
Definition flaky : Library :=
  Demo.library
    (fun n => if bool_decide (n = "sepolia") then Throw Demo.rpc_error else Normal n)
    (fun _ => Normal 42) (Normal "FeePayer111") true (Normal true)
    (Normal Demo.receipt).

Definition expected_checks : gmap string HealthCheck :=
  <["solana-devnet" := {| healthy := true; latency := Some 7; error := None |}]>
    (<["filecoin-calibration" :=
         {| healthy := true; latency := Some 7; error := None |}]>
       (<["sepolia" := {| healthy := false; latency := Some 7;
                          error := Some "fetch failed" |}]> ∅)).

End HealthDemo.

Module Scenario.

(** A settlement that the chain declined. *)
Definition declined_receipt : SettleResponse :=
  {| success := false; transaction := ""; errorReason := Some "insufficient_funds";
     settled_network := "sepolia"; payer := None |}.

Definition declining : Library :=
  Demo.library (fun n => Normal n) (fun _ => Normal 42) (Normal "FeePayer111")
    true (Normal true) (Normal declined_receipt).

(** Endpoints that answer, but with chain height zero. *)
Definition stalled : Library :=
  Demo.library (fun n => Normal n) (fun _ => Normal 0) (Normal "FeePayer111")
    true (Normal true) (Normal Demo.receipt).

(** [createSigner] returns a signer that is not an SVM wallet. *)
Definition foreign_signer : Library :=
  Demo.library (fun n => Normal n) (fun _ => Normal 42) (Normal "0xEvmSigner")
    false (Normal true) (Normal Demo.receipt).

Definition svm_only : Env :=
  {| EVM_PRIVATE_KEY := ""; SVM_PRIVATE_KEY := "svm-secret";
     SVM_RPC_URL := "https://solana.example";
     SEPOLIA_RPC_URL := "https://sepolia.example";
     FILECOIN_CALIBRATION_RPC_URL := "" |}.

End Scenario.

(** * Properties *)

(** ** Stepping a handler *)

Ltac step_handler :=
  unfold run, post_verify, post_settle, verify_catch, settle_catch,
    get_supported, get_health_rpc, get_health,
    try_catch, call, bind, ret,
    record_event, set_network, get_network, Date_now, start_machine;
  simpl.

Ltac use_outcome H := rewrite ?H; simpl.

Lemma validate_Normal L (req : Request L) reqs payload :
  validate L req = Normal (reqs, payload) →
  PaymentRequirementsSchema_parse L (paymentRequirements req) = Normal reqs
  ∧ PaymentPayloadSchema_parse L (paymentPayload req) = Normal payload.
Proof.
  unfold validate.
  destruct (PaymentRequirementsSchema_parse _ _) as [r|]; [|discriminate].
  destruct (PaymentPayloadSchema_parse _ _) as [p|]; [|discriminate].
  intros [= -> ->]. done.
Qed.

Lemma validate_Throw L (req : Request L) e :
  validate L req = Throw e →
  PaymentRequirementsSchema_parse L (paymentRequirements req) = Throw e
  ∨ ∃ reqs,
      PaymentRequirementsSchema_parse L (paymentRequirements req) = Normal reqs
      ∧ PaymentPayloadSchema_parse L (paymentPayload req) = Throw e.
Proof.
  unfold validate.
  destruct (PaymentRequirementsSchema_parse _ _) as [r|e1].
  - destruct (PaymentPayloadSchema_parse _ _) as [p|e2]; [discriminate|].
    intros [= ->]. right. by exists r.
  - intros [= ->]. by left.
Qed.

Lemma classify_EVM L n :
  classify L n = Some EVM ↔ n ∈ SupportedEVMNetworks L.
Proof.
  unfold classify. repeat case_bool_decide; split; intros; try done.
Qed.

Lemma classify_SVM L n :
  classify L n = Some SVM
  ↔ ((n ∉ SupportedEVMNetworks L) ∧ n ∈ SupportedSVMNetworks L).
Proof.
  unfold classify. repeat case_bool_decide; split; intros; try done; tauto.
Qed.

Lemma classify_None L n :
  classify L n = None
  ↔ ((n ∉ SupportedEVMNetworks L) ∧ (n ∉ SupportedSVMNetworks L)).
Proof.
  unfold classify. repeat case_bool_decide; split; intros; try done; tauto.
Qed.

Lemma truthy_false s : truthy s = false ↔ s = "".
Proof.
  unfold truthy. rewrite bool_decide_eq_false. split.
  - intros H. destruct (decide (s = "")) as [|Hn]; [done | destruct (H Hn)].
  - intros -> H. done.
Qed.

Lemma truthy_true s : truthy s = true ↔ s ≠ "".
Proof. unfold truthy. by rewrite bool_decide_eq_true. Qed.

(** ** The paths through [POST /verify] and [POST /settle] *)

Section Paths.

Context (L : Library) (env : Env).
Context (req : Request L).

Section Invalid.

Context (e : thrown) (Hinvalid : validate L req = Throw e).

Lemma verify_invalid :
  ∃ validations,
    run (post_verify L env req)
    = (Normal (bad_request (message_or "Invalid request" e)),
       validations ++ [error_record L env "[VERIFY ERROR]" None e])
    ∧ (validations = [ParseRequirements]
       ∨ validations = [ParseRequirements; ParsePayload]).
Proof.
  destruct (validate_Throw _ _ _ Hinvalid) as [Hr | (r & Hr & Hp)].
  - exists [ParseRequirements]. split; [|by left].
    step_handler. use_outcome Hr. done.
  - exists [ParseRequirements; ParsePayload]. split; [|by right].
    step_handler. use_outcome Hr. use_outcome Hp. done.
Qed.

Lemma settle_invalid :
  ∃ validations,
    run (post_settle L env req)
    = (Normal (bad_request (message_or "Settlement failed" e)),
       validations ++ [error_record L env "[SETTLE ERROR]" None e])
    ∧ (validations = [ParseRequirements]
       ∨ validations = [ParseRequirements; ParsePayload]).
Proof.
  destruct (validate_Throw _ _ _ Hinvalid) as [Hr | (r & Hr & Hp)].
  - exists [ParseRequirements]. split; [|by left].
    step_handler. use_outcome Hr. done.
  - exists [ParseRequirements; ParsePayload]. split; [|by right].
    step_handler. use_outcome Hr. use_outcome Hp. done.
Qed.

End Invalid.

Section Valid.

Context (reqs : PaymentRequirements (Terms L)) (payload : PaymentPayload L).
Context (Hvalid : validate L req = Normal (reqs, payload)).

Local Abbreviation n := (network reqs).
Local Abbreviation config := (x402Config env).

Ltac enter_valid :=
  destruct (validate_Normal _ _ _ _ Hvalid) as [Hr Hp];
  step_handler; use_outcome Hr; use_outcome Hp.

Ltac branch_on Hclass :=
  first
    [ apply classify_EVM in Hclass;
      rewrite (bool_decide_eq_true_2 _ Hclass)
    | apply classify_SVM in Hclass; destruct Hclass as [HnotEVM HinSVM];
      rewrite (bool_decide_eq_false_2 _ HnotEVM);
      rewrite (bool_decide_eq_true_2 _ HinSVM)
    | apply classify_None in Hclass; destruct Hclass as [HnotEVM HnotSVM];
      rewrite (bool_decide_eq_false_2 _ HnotEVM);
      rewrite (bool_decide_eq_false_2 _ HnotSVM) ];
  simpl.

Lemma verify_unsupported :
  classify L n = None →
  run (post_verify L env req)
  = (Normal (unsupported_network n), [ParseRequirements; ParsePayload]).
Proof. intros Hclass. enter_valid. branch_on Hclass. done. Qed.

Lemma settle_unsupported :
  classify L n = None →
  run (post_settle L env req)
  = (Normal (unsupported_network n), [ParseRequirements; ParsePayload]).
Proof. intros Hclass. enter_valid. branch_on Hclass. done. Qed.

Lemma verify_no_credential f :
  classify L n = Some f →
  credential env f = "" →
  run (post_verify L env req)
  = (Normal (payments_not_supported f), [ParseRequirements; ParsePayload]).
Proof.
  intros Hclass Hkey. apply truthy_false in Hkey.
  enter_valid. destruct f; branch_on Hclass; simpl in Hkey; by rewrite Hkey.
Qed.

Lemma settle_no_credential f :
  classify L n = Some f →
  credential env f = "" →
  run (post_settle L env req)
  = (Normal (payments_not_supported f), [ParseRequirements; ParsePayload]).
Proof.
  intros Hclass Hkey. apply truthy_false in Hkey.
  enter_valid. destruct f; branch_on Hclass; simpl in Hkey; by rewrite Hkey.
Qed.

Lemma verify_evm :
  classify L n = Some EVM →
  EVM_PRIVATE_KEY env ≠ "" →
  let provision := CreateConnectedClient n (evm_rpcUrl config n) in
  let steps := [ParseRequirements; ParsePayload; provision] in
  run (post_verify L env req)
  = match createConnectedClient L n (evm_rpcUrl config n) with
    | Throw e => caught L env reqs "[VERIFY ERROR]" "Invalid request" steps e
    | Normal client =>
        let steps := steps ++ [Verify ReadOnlyClient n] in
        match verify L (inr client) payload reqs config with
        | Throw e => caught L env reqs "[VERIFY ERROR]" "Invalid request" steps e
        | Normal result =>
            (Normal {| status := 200; json := JsonVerify result |}, steps)
        end
    end.
Proof.
  intros Hclass Hkey. apply truthy_true in Hkey.
  enter_valid. branch_on Hclass. rewrite Hkey. simpl.
  destruct (createConnectedClient L _ _) as [client|e]; simpl; [|done].
  by destruct (verify L _ _ _ _) as [result|e].
Qed.

Lemma verify_svm :
  classify L n = Some SVM →
  SVM_PRIVATE_KEY env ≠ "" →
  let provision := CreateSigner n (SVM_PRIVATE_KEY env) None in
  let steps := [ParseRequirements; ParsePayload; provision] in
  run (post_verify L env req)
  = match createSigner L n (SVM_PRIVATE_KEY env) None with
    | Throw e => caught L env reqs "[VERIFY ERROR]" "Invalid request" steps e
    | Normal signer =>
        let steps := steps ++ [Verify SigningIdentity n] in
        match verify L (inl signer) payload reqs config with
        | Throw e => caught L env reqs "[VERIFY ERROR]" "Invalid request" steps e
        | Normal result =>
            (Normal {| status := 200; json := JsonVerify result |}, steps)
        end
    end.
Proof.
  intros Hclass Hkey. apply truthy_true in Hkey.
  enter_valid. branch_on Hclass. rewrite Hkey. simpl.
  destruct (createSigner L _ _ _) as [signer|e]; simpl; [|done].
  by destruct (verify L _ _ _ _) as [result|e].
Qed.

Lemma settle_evm :
  classify L n = Some EVM →
  EVM_PRIVATE_KEY env ≠ "" →
  run (post_settle L env req)
  = settle_with L env reqs payload (EVM_PRIVATE_KEY env) (evm_rpcUrl config n).
Proof.
  intros Hclass Hkey. apply truthy_true in Hkey.
  enter_valid. branch_on Hclass. rewrite Hkey. simpl.
  unfold settle_with.
  destruct (createSigner L _ _ _) as [signer|e]; simpl; [|done].
  by destruct (settle L _ _ _ _) as [response|e].
Qed.

Lemma settle_svm :
  classify L n = Some SVM →
  SVM_PRIVATE_KEY env ≠ "" →
  run (post_settle L env req) = settle_with L env reqs payload (SVM_PRIVATE_KEY env) None.
Proof.
  intros Hclass Hkey. apply truthy_true in Hkey.
  enter_valid. branch_on Hclass. rewrite Hkey. simpl.
  unfold settle_with.
  destruct (createSigner L _ _ _) as [signer|e]; simpl; [|done].
  by destruct (settle L _ _ _ _) as [response|e].
Qed.

End Valid.

End Paths.

(** ** Unsupported networks, missing credentials, malformed requests *)

(** C2. A request that passes both schema validations and whose
    [paymentRequirements.network] is in neither [SupportedEVMNetworks] nor
    [SupportedSVMNetworks] is answered, by [POST /verify] and by
    [POST /settle] alike, with status 400 and the body
    [{error: "Unsupported network: <network>"}]; the handler makes no call
    that may reach a network: no client or signer is provisioned and the
    external verify or settle operation is not invoked. *)
Theorem unsupported_network_answer
    (L : Library) (env : Env) (req : Request L) reqs payload :
  validate L req = Normal (reqs, payload) →
  network reqs ∉ SupportedEVMNetworks L →
  network reqs ∉ SupportedSVMNetworks L →
  let answer : Response L :=
    {| status := 400;
       json := JsonError ("Unsupported network: " +:+ network reqs) |} in
  responds_without_network_calls (post_verify L env req) answer
  ∧ responds_without_network_calls (post_settle L env req) answer.
Proof.
  intros Hvalid HnotEVM HnotSVM answer.
  assert (classify L (network reqs) = None) as Hclass
    by by apply classify_None.
  split; eexists; split.
  - by apply (verify_unsupported L env req reqs payload).
  - done.
  - by apply (settle_unsupported L env req reqs payload).
  - done.
Qed.

Lemma unsupported_network_answer_witness :
  let answer : Response Demo.sound :=
    {| status := 400; json := JsonError "Unsupported network: unknown-chain" |} in
  responds_without_network_calls
    (post_verify Demo.sound Demo.evm_only
       (Demo.request _ _ _ _ _ _ "unknown-chain")) answer
  ∧ responds_without_network_calls
      (post_settle Demo.sound Demo.evm_only
         (Demo.request _ _ _ _ _ _ "unknown-chain")) answer.
Proof.
  apply (unsupported_network_answer Demo.sound Demo.evm_only
           (Demo.request _ _ _ _ _ _ "unknown-chain")
           {| network := "unknown-chain"; terms := tt |} tt).
  - reflexivity.
  - compute_done.
  - compute_done.
Defined.

(** C3. A request that passes both schema validations and whose network
    belongs to a family whose private key is the empty string is answered,
    by [POST /verify] and by [POST /settle] alike, with status 503 and the
    body [{error: "<FAMILY> payments not supported"}]; the answer is given
    before provisioning: no client or signer is created, nor is any other
    call made that may reach a network. *)
Theorem missing_credential_answer
    (L : Library) (env : Env) (req : Request L) reqs payload (f : Family) :
  validate L req = Normal (reqs, payload) →
  classify L (network reqs) = Some f →
  credential env f = "" →
  let answer : Response L :=
    {| status := 503;
       json := JsonError (family_name f +:+ " payments not supported") |} in
  (responds_without_network_calls (post_verify L env req) answer
   ∧ responds_without_network_calls (post_settle L env req) answer)
  ∧ List.filter provisioning (run (post_verify L env req)).2 = []
  ∧ List.filter provisioning (run (post_settle L env req)).2 = [].
Proof.
  intros Hvalid Hclass Hkey answer.
  pose proof (verify_no_credential L env req reqs payload Hvalid f Hclass Hkey)
    as Hverify.
  pose proof (settle_no_credential L env req reqs payload Hvalid f Hclass Hkey)
    as Hsettle.
  rewrite Hverify, Hsettle. repeat split; try done.
  - by eexists.
  - by eexists.
Qed.

Lemma missing_credential_answer_witness :
  let answer : Response Demo.sound :=
    {| status := 503; json := JsonError "SVM payments not supported" |} in
  let req := Demo.request _ _ _ _ _ _ "solana-devnet" in
  (responds_without_network_calls
     (post_verify Demo.sound Demo.evm_only req) answer
   ∧ responds_without_network_calls
       (post_settle Demo.sound Demo.evm_only req) answer)
  ∧ List.filter provisioning (run (post_verify Demo.sound Demo.evm_only req)).2 = []
  ∧ List.filter provisioning (run (post_settle Demo.sound Demo.evm_only req)).2 = [].
Proof.
  apply (missing_credential_answer Demo.sound Demo.evm_only
           (Demo.request _ _ _ _ _ _ "solana-devnet")
           {| network := "solana-devnet"; terms := tt |} tt SVM).
  - reflexivity.
  - reflexivity.
  - reflexivity.
Defined.

(** A request that passes validation takes one of the paths above; on each
    of them the two validations are the first two steps and the handler
    completes with a response. *)
Lemma valid_run (L : Library) (env : Env) (req : Request L) reqs payload :
  validate L req = Normal (reqs, payload) →
  (∃ r rest, run (post_verify L env req)
             = (Normal r, ParseRequirements :: ParsePayload :: rest))
  ∧ (∃ r rest, run (post_settle L env req)
               = (Normal r, ParseRequirements :: ParsePayload :: rest)).
Proof.
  intros Hvalid.
  destruct (classify L (network reqs)) as [f|] eqn:Hclass.
  - destruct (decide (credential env f = "")) as [Hkey|Hkey].
    + rewrite (verify_no_credential L env req reqs payload Hvalid f Hclass Hkey).
      rewrite (settle_no_credential L env req reqs payload Hvalid f Hclass Hkey).
      split; by do 2 eexists.
    + destruct f; simpl in Hkey.
      * rewrite (verify_evm L env req reqs payload Hvalid Hclass Hkey).
        rewrite (settle_evm L env req reqs payload Hvalid Hclass Hkey).
        unfold settle_with, caught. split.
        -- destruct (createConnectedClient L _ _); [|by do 2 eexists].
           destruct (verify L _ _ _ _); by do 2 eexists.
        -- destruct (createSigner L _ _ _); [|by do 2 eexists].
           destruct (settle L _ _ _ _); by do 2 eexists.
      * rewrite (verify_svm L env req reqs payload Hvalid Hclass Hkey).
        rewrite (settle_svm L env req reqs payload Hvalid Hclass Hkey).
        unfold settle_with, caught. split.
        -- destruct (createSigner L _ _ _); [|by do 2 eexists].
           destruct (verify L _ _ _ _); by do 2 eexists.
        -- destruct (createSigner L _ _ _); [|by do 2 eexists].
           destruct (settle L _ _ _ _); by do 2 eexists.
  - rewrite (verify_unsupported L env req reqs payload Hvalid Hclass).
    rewrite (settle_unsupported L env req reqs payload Hvalid Hclass).
    split; by do 2 eexists.
Qed.

Lemma network_calls_app (s t : list event) :
  network_calls (s ++ t) = network_calls s ++ network_calls t.
Proof. apply List.filter_app. Qed.

(** C4. In [POST /verify] and in [POST /settle] the schema validation of
    [paymentRequirements] and of [paymentPayload] comes before every call
    that may reach a network.  When either validation throws [e] the
    handler answers status 400 with the body [{error: e.message}] (the
    fixed text of the handler when [e] is not an [Error]) and no client or
    signer is provisioned and no external verify or settle operation is
    invoked.  Conversely, a run in which some call reached a network is a
    run whose first two steps are the two validations, both successful. *)
Theorem validation_precedes_network_calls
    (L : Library) (env : Env) (req : Request L) :
  (∀ e, validate L req = Throw e →
     responds_without_network_calls (post_verify L env req)
       {| status := 400; json := JsonError (message_or "Invalid request" e) |}
     ∧ responds_without_network_calls (post_settle L env req)
         {| status := 400; json := JsonError (message_or "Settlement failed" e) |})
  ∧ (∀ steps,
       steps = (run (post_verify L env req)).2
       ∨ steps = (run (post_settle L env req)).2 →
       network_calls steps ≠ [] →
       ∃ reqs payload rest,
         validate L req = Normal (reqs, payload)
         ∧ steps = ParseRequirements :: ParsePayload :: rest).
Proof.
  split.
  - intros e Hinvalid.
    destruct (verify_invalid L env req e Hinvalid) as (v1 & Hverify & Hv1).
    destruct (settle_invalid L env req e Hinvalid) as (v2 & Hsettle & Hv2).
    split; eexists; (split; [eassumption|]);
      rewrite network_calls_app.
    + by destruct Hv1 as [-> | ->].
    + by destruct Hv2 as [-> | ->].
  - intros steps Hsteps Hcalls.
    destruct (validate L req) as [[reqs payload]|e] eqn:Hvalid.
    + destruct (valid_run L env req reqs payload Hvalid)
        as [(r1 & rest1 & H1) (r2 & rest2 & H2)].
      exists reqs, payload.
      destruct Hsteps as [-> | ->]; [rewrite H1 | rewrite H2];
        by eexists.
    + exfalso. apply Hcalls.
      destruct (verify_invalid L env req e Hvalid) as (v1 & Hverify & Hv1).
      destruct (settle_invalid L env req e Hvalid) as (v2 & Hsettle & Hv2).
      destruct Hsteps as [-> | ->]; [rewrite Hverify | rewrite Hsettle];
        simpl; rewrite network_calls_app.
      * by destruct Hv1 as [-> | ->].
      * by destruct Hv2 as [-> | ->].
Qed.

Lemma validation_precedes_network_calls_witness :
  let malformed := Demo.malformed_payload (fun n => Normal n) (fun _ => Normal 42)
                     (Normal "FeePayer111") true (Normal true)
                     (Normal Demo.receipt) "sepolia" in
  let wellformed := Demo.request (fun n => Normal n) (fun _ => Normal 42)
                      (Normal "FeePayer111") true (Normal true)
                      (Normal Demo.receipt) "sepolia" in
  (responds_without_network_calls
     (post_verify Demo.sound Demo.both_families malformed)
     {| status := 400; json := JsonError "Required" |}
   ∧ responds_without_network_calls
       (post_settle Demo.sound Demo.both_families malformed)
       {| status := 400; json := JsonError "Required" |})
  ∧ ∃ reqs payload rest,
      validate Demo.sound wellformed = Normal (reqs, payload)
      ∧ (run (post_settle Demo.sound Demo.both_families wellformed)).2
        = ParseRequirements :: ParsePayload :: rest.
Proof.
  intros malformed wellformed. split.
  - apply (proj1 (validation_precedes_network_calls
                    Demo.sound Demo.both_families malformed) Demo.zod_error).
    reflexivity.
  - apply (proj2 (validation_precedes_network_calls
                    Demo.sound Demo.both_families wellformed)).
    + right. reflexivity.
    + vm_compute. discriminate.
Defined.

(** ** Exceptions raised by provisioning and by the external operation *)

Section Raises.

Context (L : Library) (env : Env).
Context (reqs : PaymentRequirements (Terms L)) (payload : PaymentPayload L).
Context (req : Request L) (Hvalid : validate L req = Normal (reqs, payload)).

Lemma verify_raises_caught e :
  verify_raises L env reqs payload e →
  ∃ steps, run (post_verify L env req)
           = caught L env reqs "[VERIFY ERROR]" "Invalid request" steps e.
Proof.
  intros [Hclass Hkey Hc | c Hclass Hkey Hc Hv
         | Hclass Hkey Hs | s Hclass Hkey Hs Hv].
  - rewrite (verify_evm L env req reqs payload Hvalid Hclass Hkey).
    rewrite Hc. by eexists.
  - rewrite (verify_evm L env req reqs payload Hvalid Hclass Hkey).
    rewrite Hc, Hv. by eexists.
  - rewrite (verify_svm L env req reqs payload Hvalid Hclass Hkey).
    rewrite Hs. by eexists.
  - rewrite (verify_svm L env req reqs payload Hvalid Hclass Hkey).
    rewrite Hs, Hv. by eexists.
Qed.

Lemma settle_raises_caught e :
  settle_raises L env reqs payload e →
  ∃ steps, run (post_settle L env req)
           = caught L env reqs "[SETTLE ERROR]" "Settlement failed" steps e.
Proof.
  intros [Hclass Hkey Hs | s Hclass Hkey Hs Hv
         | Hclass Hkey Hs | s Hclass Hkey Hs Hv].
  - rewrite (settle_evm L env req reqs payload Hvalid Hclass Hkey).
    unfold settle_with. rewrite Hs. by eexists.
  - rewrite (settle_evm L env req reqs payload Hvalid Hclass Hkey).
    unfold settle_with. rewrite Hs, Hv. by eexists.
  - rewrite (settle_svm L env req reqs payload Hvalid Hclass Hkey).
    unfold settle_with. rewrite Hs. by eexists.
  - rewrite (settle_svm L env req reqs payload Hvalid Hclass Hkey).
    unfold settle_with. rewrite Hs, Hv. by eexists.
Qed.

End Raises.

(** Neither handler lets an exception escape: every request gets a
    response. *)
Lemma post_handlers_respond (L : Library) (env : Env) (req : Request L) :
  (∃ r, (run (post_verify L env req)).1 = Normal r)
  ∧ (∃ r, (run (post_settle L env req)).1 = Normal r).
Proof.
  destruct (validate L req) as [[reqs payload]|e] eqn:Hvalid.
  - destruct (valid_run L env req reqs payload Hvalid)
      as [(r1 & rest1 & ->) (r2 & rest2 & ->)].
    split; by eexists.
  - destruct (verify_invalid L env req e Hvalid) as (v1 & -> & _).
    destruct (settle_invalid L env req e Hvalid) as (v2 & -> & _).
    split; by eexists.
Qed.

(** C9. An exception [e] raised while [POST /verify] or [POST /settle]
    provisions its client or signer, or while the external verify or settle
    operation runs, is caught by the handler, which answers status 400 with
    a body that has the single field [error]: the message of [e] when [e]
    is an [Error] (its stack is not part of the response), the handler's
    fixed text otherwise.  No run of either handler ends in an exception:
    each request gets a response. *)
Theorem provisioning_and_invocation_errors_are_caught
    (L : Library) (env : Env) (req : Request L) :
  ((∃ r, (run (post_verify L env req)).1 = Normal r)
   ∧ (∃ r, (run (post_settle L env req)).1 = Normal r))
  ∧ ∀ reqs payload e,
      validate L req = Normal (reqs, payload) →
      (verify_raises L env reqs payload e →
         (run (post_verify L env req)).1
         = Normal {| status := 400;
                     json := JsonError (message_or "Invalid request" e) |}
         ∧ ∀ message stack, e = ErrorObject message stack →
             (run (post_verify L env req)).1
             = Normal {| status := 400; json := JsonError message |})
      ∧ (settle_raises L env reqs payload e →
           (run (post_settle L env req)).1
           = Normal {| status := 400;
                       json := JsonError (message_or "Settlement failed" e) |}
           ∧ ∀ message stack, e = ErrorObject message stack →
               (run (post_settle L env req)).1
               = Normal {| status := 400; json := JsonError message |}).
Proof.
  split; [apply post_handlers_respond|].
  intros reqs payload e Hvalid. split; intros Hraises.
  - destruct (verify_raises_caught L env reqs payload req Hvalid e Hraises)
      as [steps ->].
    split; [done|]. by intros message stack ->.
  - destruct (settle_raises_caught L env reqs payload req Hvalid e Hraises)
      as [steps ->].
    split; [done|]. by intros message stack ->.
Qed.

Lemma provisioning_and_invocation_errors_are_caught_witness :
  let req := Demo.request (fun _ => Throw Demo.rpc_error)
               (fun _ => Throw Demo.rpc_error) (Throw Demo.key_error) true
               (Throw Demo.rpc_error) (Throw Demo.rpc_error) "sepolia" in
  (run (post_verify Demo.unreachable Demo.both_families req)).1
  = Normal {| status := 400; json := JsonError "fetch failed" |}
  ∧ (run (post_settle Demo.unreachable Demo.both_families req)).1
    = Normal {| status := 400; json := JsonError "Invalid private key" |}.
Proof.
  intros req.
  pose proof (proj2 (provisioning_and_invocation_errors_are_caught
                       Demo.unreachable Demo.both_families req)) as H.
  split.
  - refine (proj1 (proj1 (H {| network := "sepolia"; terms := tt |} tt
                            Demo.rpc_error eq_refl) _)).
    apply read_client_provisioning_throws; [reflexivity | discriminate | reflexivity].
  - refine (proj1 (proj2 (H {| network := "sepolia"; terms := tt |} tt
                            Demo.key_error eq_refl) _)).
    apply evm_signer_throws; [reflexivity | discriminate | reflexivity].
Defined.

(** ** What is provisioned, and with which endpoint *)

(** C1, as stated, fails on the SVM family: with the SVM key configured, a
    valid verify request on [solana-devnet] creates a signer from the
    private key and no connected client. *)
Lemma verify_on_solana_provisions_a_signer :
  let req := Demo.request (fun n => Normal n) (fun _ => Normal 42)
               (Normal "FeePayer111") true (Normal true)
               (Normal Demo.receipt) "solana-devnet" in
  validate Demo.sound req
  = Normal ({| network := "solana-devnet"; terms := tt |}, tt)
  ∧ classify Demo.sound "solana-devnet" = Some SVM
  ∧ credential Demo.both_families SVM ≠ ""
  ∧ ¬ provisions_read_only_client
        (run (post_verify Demo.sound Demo.both_families req)).2.
Proof.
  intros req. repeat split; try done.
  intros [(n & rpc & Hin) _]. vm_compute in Hin.
  repeat (apply elem_of_cons in Hin as [Heq | Hin]; [discriminate Heq|]).
  by apply elem_of_nil in Hin.
Qed.

(** C1, amended.  For a verify request that passes validation: on an EVM
    network with the EVM key configured the first call that may reach a
    network is [createConnectedClient] for that network, the external
    verification follows it when the client was obtained, and no signer is
    created; on an SVM network with the SVM key configured the first such
    call is [createSigner] with the SVM private key, followed by the
    external verification when the signer was obtained. *)
Theorem verify_provisioning_by_family
    (L : Library) (env : Env) (req : Request L) reqs payload :
  validate L req = Normal (reqs, payload) →
  let n := network reqs in
  let calls := network_calls (run (post_verify L env req)).2 in
  (classify L n = Some EVM → EVM_PRIVATE_KEY env ≠ "" →
     let rpc := evm_rpcUrl (x402Config env) n in
     calls = CreateConnectedClient n rpc
             :: match createConnectedClient L n rpc with
                | Normal _ => [Verify ReadOnlyClient n]
                | Throw _ => []
                end)
  ∧ (classify L n = Some SVM → SVM_PRIVATE_KEY env ≠ "" →
       calls = CreateSigner n (SVM_PRIVATE_KEY env) None
               :: match createSigner L n (SVM_PRIVATE_KEY env) None with
                  | Normal _ => [Verify SigningIdentity n]
                  | Throw _ => []
                  end).
Proof.
  intros Hvalid n calls. subst calls n. split; intros Hclass Hkey; simpl.
  - rewrite (verify_evm L env req reqs payload Hvalid Hclass Hkey).
    unfold caught.
    destruct (createConnectedClient L _ _); [|done].
    by destruct (verify L _ _ _ _).
  - rewrite (verify_svm L env req reqs payload Hvalid Hclass Hkey).
    unfold caught.
    destruct (createSigner L _ _ _); [|done].
    by destruct (verify L _ _ _ _).
Qed.

Lemma verify_provisioning_by_family_witness :
  let evm := Demo.request (fun n => Normal n) (fun _ => Normal 42)
               (Normal "FeePayer111") true (Normal true)
               (Normal Demo.receipt) "sepolia" in
  let svm := Demo.request (fun n => Normal n) (fun _ => Normal 42)
               (Normal "FeePayer111") true (Normal true)
               (Normal Demo.receipt) "solana" in
  network_calls (run (post_verify Demo.sound Demo.both_families evm)).2
  = [CreateConnectedClient "sepolia" (Some "https://sepolia.example");
     Verify ReadOnlyClient "sepolia"]
  ∧ network_calls (run (post_verify Demo.sound Demo.both_families svm)).2
    = [CreateSigner "solana" "svm-secret" None; Verify SigningIdentity "solana"].
Proof.
  intros evm svm. split.
  - apply (proj1 (verify_provisioning_by_family Demo.sound Demo.both_families
                    evm {| network := "sepolia"; terms := tt |} tt eq_refl));
      [reflexivity | discriminate].
  - apply (proj2 (verify_provisioning_by_family Demo.sound Demo.both_families
                    svm {| network := "solana"; terms := tt |} tt eq_refl));
      [reflexivity | discriminate].
Defined.


(** C8, as stated, fails on the SVM family: with [SVM_RPC_URL] set, the
    configuration holds a custom endpoint for [solana-devnet], yet neither
    handler hands it to the provisioning call. *)
Lemma svm_provisioning_ignores_custom_endpoint :
  let req := Demo.request (fun n => Normal n) (fun _ => Normal 42)
               (Normal "FeePayer111") true (Normal true)
               (Normal Demo.receipt) "solana-devnet" in
  validate Demo.sound req
  = Normal ({| network := "solana-devnet"; terms := tt |}, tt)
  ∧ credential Demo.both_families SVM ≠ ""
  ∧ custom_rpc_endpoint Demo.sound Demo.both_families "solana-devnet"
    = Some "https://solana.example"
  ∧ ¬ provisioned_with
        (run (post_verify Demo.sound Demo.both_families req)).2
        (Some "https://solana.example")
  ∧ ¬ provisioned_with
        (run (post_settle Demo.sound Demo.both_families req)).2
        (Some "https://solana.example").
Proof.
  intros req. repeat split; try done.
  - intros (e & Hin & Hprov & Hrpc). vm_compute in Hin.
    repeat (apply elem_of_cons in Hin as [-> | Hin]; [discriminate|]).
    by apply elem_of_nil in Hin.
  - intros (e & Hin & Hprov & Hrpc). vm_compute in Hin.
    repeat (apply elem_of_cons in Hin as [-> | Hin]; [discriminate|]).
    by apply elem_of_nil in Hin.
Qed.

(** C8, amended.  For a request that passes validation on an EVM network
    with the EVM key configured, the single provisioning call of
    [POST /verify] ([createConnectedClient]) and of [POST /settle]
    ([createSigner]) receives [x402Config?.evmConfig?.rpcUrls?.[network]]:
    the custom endpoint of that network when one is configured, [undefined]
    (default endpoint resolution) when none is.  On an SVM network with the
    SVM key configured the single provisioning call of either handler is
    [createSigner] without an endpoint, whatever [SVM_RPC_URL] is. *)
Theorem provisioning_endpoint_by_family
    (L : Library) (env : Env) (req : Request L) reqs payload :
  validate L req = Normal (reqs, payload) →
  let n := network reqs in
  let rpc := evm_rpcUrl (x402Config env) n in
  (classify L n = Some EVM → EVM_PRIVATE_KEY env ≠ "" →
     List.filter provisioning (run (post_verify L env req)).2
     = [CreateConnectedClient n rpc]
     ∧ List.filter provisioning (run (post_settle L env req)).2
       = [CreateSigner n (EVM_PRIVATE_KEY env) rpc])
  ∧ (classify L n = Some SVM → SVM_PRIVATE_KEY env ≠ "" →
       List.filter provisioning (run (post_verify L env req)).2
       = [CreateSigner n (SVM_PRIVATE_KEY env) None]
       ∧ List.filter provisioning (run (post_settle L env req)).2
         = [CreateSigner n (SVM_PRIVATE_KEY env) None]).
Proof.
  intros Hvalid n rpc. subst n rpc. split; intros Hclass Hkey.
  - rewrite (verify_evm L env req reqs payload Hvalid Hclass Hkey).
    rewrite (settle_evm L env req reqs payload Hvalid Hclass Hkey).
    unfold settle_with, caught. split.
    + destruct (createConnectedClient L _ _); [|done].
      by destruct (verify L _ _ _ _).
    + destruct (createSigner L _ _ _); [|done].
      by destruct (settle L _ _ _ _).
  - rewrite (verify_svm L env req reqs payload Hvalid Hclass Hkey).
    rewrite (settle_svm L env req reqs payload Hvalid Hclass Hkey).
    unfold settle_with, caught. split.
    + destruct (createSigner L _ _ _); [|done].
      by destruct (verify L _ _ _ _).
    + destruct (createSigner L _ _ _); [|done].
      by destruct (settle L _ _ _ _).
Qed.

Lemma provisioning_endpoint_by_family_witness :
  let evm := Demo.request (fun n => Normal n) (fun _ => Normal 42)
               (Normal "FeePayer111") true (Normal true)
               (Normal Demo.receipt) "filecoin-calibration" in
  let svm := Demo.request (fun n => Normal n) (fun _ => Normal 42)
               (Normal "FeePayer111") true (Normal true)
               (Normal Demo.receipt) "solana-devnet" in
  (List.filter provisioning (run (post_verify Demo.sound Demo.both_families evm)).2
   = [CreateConnectedClient "filecoin-calibration"
        (Some "https://calibration.example")]
   ∧ List.filter provisioning (run (post_settle Demo.sound Demo.both_families evm)).2
     = [CreateSigner "filecoin-calibration" "0xabc"
          (Some "https://calibration.example")])
  ∧ (List.filter provisioning (run (post_verify Demo.sound Demo.both_families svm)).2
     = [CreateSigner "solana-devnet" "svm-secret" None]
     ∧ List.filter provisioning (run (post_settle Demo.sound Demo.both_families svm)).2
       = [CreateSigner "solana-devnet" "svm-secret" None]).
Proof.
  intros evm svm. split.
  - apply (proj1 (provisioning_endpoint_by_family Demo.sound Demo.both_families
                    evm {| network := "filecoin-calibration"; terms := tt |} tt
                    eq_refl));
      [reflexivity | discriminate].
  - apply (proj2 (provisioning_endpoint_by_family Demo.sound Demo.both_families
                    svm {| network := "solana-devnet"; terms := tt |} tt
                    eq_refl));
      [reflexivity | discriminate].
Defined.

(** ** [GET /health/rpc]: the probes and the verdict *)

Section Health.

Context (L : Library) (env : Env).

Lemma probe_evm_spec n url m :
  ∃ elapsed m',
    probe_evm L n url m = (Normal (evm_entry (evm_probe L n url) elapsed), m').
Proof.
  unfold probe_evm, evm_probe, try_catch, call, bind, ret, record_event,
    Date_now; simpl.
  destruct (createConnectedClient L n (Some url)) as [client|e]; simpl;
    [|by do 2 eexists].
  destruct (getBlockNumber L client) as [b|e]; simpl; by do 2 eexists.
Qed.

Lemma check_evm_spec entries :
  NoDup entries.*1 →
  ∀ checks m,
    ∃ checks' m',
      check_evm L entries checks m = (Normal checks', m')
      ∧ (∀ n, n ∉ entries.*1 → checks' !! n = checks !! n)
      ∧ (∀ n url, (n, url) ∈ entries → url ≠ "" →
           ∃ elapsed,
             checks' !! n = Some (evm_entry (evm_probe L n url) elapsed)).
Proof.
  induction entries as [|[k u] rest IH]; intros Hnodup checks m.
  - exists checks, m. split; [done|]. split; [done|].
    intros n url Hin. by apply elem_of_nil in Hin.
  - simpl in Hnodup. apply NoDup_cons in Hnodup as [Hfresh Hnodup].
    simpl. destruct (truthy u) eqn:Hu; simpl.
    + destruct (probe_evm_spec k u m) as (elapsed & m1 & Hprobe).
      unfold bind at 1. rewrite Hprobe.
      destruct (IH Hnodup (<[k := evm_entry (evm_probe L k u) elapsed]> checks) m1)
        as (checks' & m' & Hrun & Hother & Hentries).
      exists checks', m'. split; [done|]. split.
      * intros n Hn. apply not_elem_of_cons in Hn as [Hne Hn].
        rewrite (Hother n Hn). by apply lookup_insert_ne.
      * intros n url Hin Hurl.
        apply elem_of_cons in Hin as [[= -> ->] | Hin].
        -- exists elapsed. rewrite (Hother k Hfresh). apply lookup_insert_eq.
        -- by apply Hentries.
    + destruct (IH Hnodup checks m) as (checks' & m' & Hrun & Hother & Hentries).
      exists checks', m'. split; [done|]. split.
      * intros n Hn. apply not_elem_of_cons in Hn as [Hne Hn]. by apply Hother.
      * intros n url Hin Hurl.
        apply elem_of_cons in Hin as [[= -> ->] | Hin].
        -- by apply truthy_false in Hu.
        -- by apply Hentries.
Qed.

Lemma evm_endpoints_env :
  evm_endpoints env
  = if truthy (EVM_PRIVATE_KEY env)
    then (if truthy (SEPOLIA_RPC_URL env)
          then [("sepolia", SEPOLIA_RPC_URL env)] else [])
         ++ (if truthy (FILECOIN_CALIBRATION_RPC_URL env)
             then [("filecoin-calibration", FILECOIN_CALIBRATION_RPC_URL env)]
             else [])
    else [].
Proof.
  unfold evm_endpoints, x402Config.
  by destruct (truthy (SVM_RPC_URL env)), (truthy (SEPOLIA_RPC_URL env)),
    (truthy (FILECOIN_CALIBRATION_RPC_URL env)), (truthy (EVM_PRIVATE_KEY env)).
Qed.

Lemma evm_endpoints_wf :
  NoDup (evm_endpoints env).*1
  ∧ ("solana-devnet" ∉ (evm_endpoints env).*1)
  ∧ ∀ n url, (n, url) ∈ evm_endpoints env → url ≠ "".
Proof.
  rewrite evm_endpoints_env.
  destruct (truthy (EVM_PRIVATE_KEY env));
    destruct (truthy (SEPOLIA_RPC_URL env)) eqn:Hs;
    destruct (truthy (FILECOIN_CALIBRATION_RPC_URL env)) eqn:Hf; simpl;
    (split; [compute_done|]);
    (split; [compute_done|]);
    intros n url Hin;
    repeat (apply elem_of_cons in Hin as [[= -> ->] | Hin];
            [by apply truthy_true|]);
    by apply elem_of_nil in Hin.
Qed.

Lemma health_checks_endpoints m :
  health_checks L env m
  = bind (check_evm L (evm_endpoints env) ∅)
      (fun checks => if svm_probed env then check_svm L env checks else ret checks) m.
Proof.
  unfold health_checks, evm_endpoints, svm_probed, bind.
  destruct (x402Config env) as [[s [e|]]|]; try done.
  by destruct (truthy (EVM_PRIVATE_KEY env)).
Qed.

Lemma check_svm_spec checks m :
  ∃ checks' m' elapsed,
    check_svm L env checks m = (Normal checks', m')
    ∧ (∀ n, n ≠ "solana-devnet" → checks' !! n = checks !! n)
    ∧ checks' !! "solana-devnet"
      = match svm_entry L (createSigner L "solana-devnet" (SVM_PRIVATE_KEY env) None)
                elapsed with
        | Some entry => Some entry
        | None => checks !! "solana-devnet"
        end.
Proof.
  unfold check_svm, svm_entry, try_catch, call, bind, ret, record_event,
    Date_now; simpl.
  destruct (createSigner L _ _ _) as [signer|e]; simpl.
  - destruct (isSvmSignerWallet L signer); simpl.
    + do 3 eexists. split; [done|]. split.
      * intros n Hn. by apply lookup_insert_ne.
      * apply lookup_insert_eq.
    + eexists _, _, 0. by split.
  - do 3 eexists. split; [done|]. split.
    + intros n Hn. by apply lookup_insert_ne.
    + apply lookup_insert_eq.
Qed.

(** Every probe leaves its own entry, whatever the other probes did. *)
Lemma health_checks_spec m :
  ∃ checks m',
    health_checks L env m = (Normal checks, m')
    ∧ (∀ n url, (n, url) ∈ evm_endpoints env →
         ∃ elapsed, checks !! n = Some (evm_entry (evm_probe L n url) elapsed))
    ∧ (svm_probed env = true →
         ∃ elapsed,
           checks !! "solana-devnet"
           = svm_entry L (createSigner L "solana-devnet" (SVM_PRIVATE_KEY env) None)
               elapsed)
    ∧ (∀ n, n ∉ (evm_endpoints env).*1 →
         ¬ (svm_probed env = true ∧ n = "solana-devnet") → checks !! n = None).
Proof.
  destruct evm_endpoints_wf as (Hnodup & Hsolana & Hurls).
  rewrite health_checks_endpoints. unfold bind.
  destruct (check_evm_spec (evm_endpoints env) Hnodup ∅ m)
    as (checks1 & m1 & -> & Hother & Hentries).
  destruct (svm_probed env) eqn:Hsvm.
  - destruct (check_svm_spec checks1 m1)
      as (checks2 & m2 & elapsed & -> & Hrest & Hdevnet).
    exists checks2, m2. split; [done|]. repeat split.
    + intros n url Hin.
      destruct (Hentries n url Hin (Hurls n url Hin)) as [el Hn].
      exists el. rewrite Hrest; [done|].
      intros ->. apply Hsolana. apply list_elem_of_fmap. by exists ("solana-devnet", url).
    + intros _. exists elapsed. rewrite Hdevnet.
      destruct (svm_entry _ _); [done|].
      by rewrite (Hother _ Hsolana).
    + intros n Hn Hnot. rewrite Hrest; [by rewrite (Hother n Hn)|].
      intros ->. by apply Hnot.
  - exists checks1, m1. split; [done|]. repeat split.
    + intros n url Hin. apply Hentries; [done|]. by apply (Hurls n).
    + done.
    + intros n Hn _. by rewrite (Hother n Hn).
Qed.

End Health.

Lemma all_healthy (checks : gmap string HealthCheck) :
  forallb healthy (Object_values checks) = true
  ↔ ∀ n c, checks !! n = Some c → healthy c = true.
Proof.
  unfold Object_values. rewrite List.forallb_forall. split.
  - intros Hall n c Hn. apply Hall. apply list_elem_of_In.
    apply list_elem_of_fmap. exists (n, c). split; [done|].
    by apply elem_of_map_to_list.
  - intros Hall c Hc. apply list_elem_of_In in Hc.
    apply list_elem_of_fmap in Hc as ([n c'] & -> & Hin).
    apply elem_of_map_to_list in Hin. by apply (Hall n).
Qed.

Lemma get_health_rpc_run (L : Library) (env : Env) :
  ∃ checks m,
    health_checks L env start_machine = (Normal checks, m)
    ∧ run (get_health_rpc L env)
      = (Normal
           {| status := if forallb healthy (Object_values checks)
                        then 200%nat else 503%nat;
              json := JsonHealthRpc
                        (if forallb healthy (Object_values checks)
                         then "healthy" else "degraded")
                        checks (clock L (readings m)) |},
         trace m).
Proof.
  destruct (health_checks_spec L env start_machine) as (checks & m & Hrun & _).
  exists checks, m. split; [done|].
  unfold run, get_health_rpc, bind. rewrite Hrun. done.
Qed.

(** C5. [GET /health/rpc] always answers, and its answer holds one entry
    per probe, written from that probe's outcome alone: a probe that throws
    [e] (for an EVM endpoint, [createConnectedClient] or [getBlockNumber];
    for Solana, [createSigner]) leaves [healthy: false] and
    [error: e.message] in the entry of its own network, while the entry of
    every other probed network is the one its own probe yields.  The
    response is status 200 with ["healthy"] when every entry of [checks] is
    healthy, and status 503 with ["degraded"] when some entry is not. *)
Theorem health_probe_failures_are_contained (L : Library) (env : Env) :
  ∃ r label checks timestamp,
    (run (get_health_rpc L env)).1 = Normal r
    ∧ json r = JsonHealthRpc label checks timestamp
    ∧ ((∀ n c, checks !! n = Some c → healthy c = true) →
         status r = 200%nat ∧ label = "healthy")
    ∧ ((∃ n c, checks !! n = Some c ∧ healthy c = false) →
         status r = 503%nat ∧ label = "degraded")
    ∧ (∀ n url, (n, url) ∈ evm_endpoints env →
         (∀ e, evm_probe L n url = Throw e →
            ∃ c, checks !! n = Some c ∧ healthy c = false
                 ∧ error c = Some (message_or "Unknown error" e))
         ∧ (∀ b, evm_probe L n url = Normal b →
              ∃ c, checks !! n = Some c ∧ healthy c = bool_decide (0 < b)
                   ∧ error c = None))
    ∧ (svm_probed env = true →
         (∀ e, createSigner L "solana-devnet" (SVM_PRIVATE_KEY env) None = Throw e →
            ∃ c, checks !! "solana-devnet" = Some c ∧ healthy c = false
                 ∧ error c = Some (message_or "Unknown error" e))
         ∧ (∀ s, createSigner L "solana-devnet" (SVM_PRIVATE_KEY env) None = Normal s →
              isSvmSignerWallet L s = true →
              ∃ c, checks !! "solana-devnet" = Some c ∧ healthy c = true
                   ∧ error c = None)).
Proof.
  destruct (get_health_rpc_run L env) as (checks & m & Hchecks & Hrun).
  destruct (health_checks_spec L env start_machine)
    as (checks' & m' & Hchecks' & Hevm & Hsvm & _).
  rewrite Hchecks in Hchecks'. injection Hchecks' as <- <-.
  rewrite Hrun. do 4 eexists. split; [done|]. split; [done|]. simpl.
  pose proof (all_healthy checks) as Hall. repeat split.
  - apply Hall in H. by rewrite H.
  - apply Hall in H. by rewrite H.
  - destruct H as (n & c & Hn & Hc).
    destruct (forallb healthy (Object_values checks)) eqn:Hverdict; [|done].
    rewrite (proj1 Hall eq_refl n c Hn) in Hc. done.
  - destruct H as (n & c & Hn & Hc).
    destruct (forallb healthy (Object_values checks)) eqn:Hverdict; [|done].
    rewrite (proj1 Hall eq_refl n c Hn) in Hc. done.
  - intros e He. destruct (Hevm n url H) as [elapsed Hn].
    rewrite He in Hn. by eexists.
  - intros b Hb. destruct (Hevm n url H) as [elapsed Hn].
    rewrite Hb in Hn. by eexists.
  - intros e He. destruct (Hsvm H) as [elapsed Hn].
    rewrite He in Hn. by eexists.
  - intros s Hs Hwallet. destruct (Hsvm H) as [elapsed Hn].
    rewrite Hs in Hn. simpl in Hn. rewrite Hwallet in Hn. by eexists.
Qed.

Example flaky_run :
  (run (get_health_rpc HealthDemo.flaky Demo.both_families)).1
  = Normal {| status := 503;
              json := JsonHealthRpc "degraded" HealthDemo.expected_checks 1042 |}.
Proof. vm_compute. reflexivity. Qed.

Lemma health_probe_failures_are_contained_witness :
  (("sepolia", "https://sepolia.example") ∈ evm_endpoints Demo.both_families
   ∧ evm_probe HealthDemo.flaky "sepolia" "https://sepolia.example"
     = Throw Demo.rpc_error)
  ∧ ∃ r label checks timestamp,
      (run (get_health_rpc HealthDemo.flaky Demo.both_families)).1 = Normal r
      ∧ json r = JsonHealthRpc label checks timestamp
      ∧ ∃ c, checks !! "sepolia" = Some c ∧ healthy c = false
             ∧ error c = Some "fetch failed".
Proof.
  assert (("sepolia", "https://sepolia.example")
          ∈ evm_endpoints Demo.both_families) as Hin by (left).
  split; [by split|].
  destruct (health_probe_failures_are_contained
              HealthDemo.flaky Demo.both_families)
    as (r & label & checks & timestamp & Hrun & Hjson & _ & _ & Hevm & _).
  exists r, label, checks, timestamp. split; [exact Hrun|].
  split; [exact Hjson|].
  exact (proj1 (Hevm "sepolia" "https://sepolia.example" Hin)
           Demo.rpc_error eq_refl).
Defined.

(** C10. When the guard of neither probe holds (no EVM endpoint override
    together with an EVM key, and no [SVM_RPC_URL] together with an SVM
    key), [GET /health/rpc] answers status 200 with status text
    ["healthy"] and an empty [checks] object, and probes nothing. *)
Theorem health_without_probes (L : Library) (env : Env) :
  (SEPOLIA_RPC_URL env = "" ∧ FILECOIN_CALIBRATION_RPC_URL env = "")
  ∨ EVM_PRIVATE_KEY env = "" →
  SVM_RPC_URL env = "" ∨ SVM_PRIVATE_KEY env = "" →
  run (get_health_rpc L env)
  = (Normal {| status := 200;
               json := JsonHealthRpc "healthy" ∅ (clock L 0) |}, []).
Proof.
  intros Hevm Hsvm.
  assert (evm_endpoints env = []) as Hendpoints.
  { rewrite evm_endpoints_env.
    destruct Hevm as [[Hs Hf] | Hk].
    - apply truthy_false in Hs, Hf. rewrite Hs, Hf.
      by destruct (truthy (EVM_PRIVATE_KEY env)).
    - apply truthy_false in Hk. by rewrite Hk. }
  assert (svm_probed env = false) as Hprobed.
  { unfold svm_probed.
    destruct Hsvm as [H | H]; apply truthy_false in H; rewrite H;
      [done | apply andb_false_r]. }
  unfold run, get_health_rpc. unfold bind at 1.
  rewrite health_checks_endpoints, Hendpoints, Hprobed.
  reflexivity.
Qed.

Lemma health_without_probes_witness :
  run (get_health_rpc Demo.sound Demo.evm_only)
  = (Normal {| status := 200; json := JsonHealthRpc "healthy" ∅ 1000 |}, []).
Proof.
  apply (health_without_probes Demo.sound Demo.evm_only).
  - left. split; reflexivity.
  - left. reflexivity.
Defined.

(** ** [GET /supported]: the capability announcement *)

(** The handler's answer when [createSigner] returns, or is not called. *)
Lemma get_supported_run (L : Library) (env : Env) :
  run (get_supported L env)
  = let evm := if truthy (EVM_PRIVATE_KEY env) then evm_kinds else [] in
    if truthy (SVM_PRIVATE_KEY env)
    then
      let provision := CreateSigner "solana-devnet" (SVM_PRIVATE_KEY env) None in
      match createSigner L "solana-devnet" (SVM_PRIVATE_KEY env) None with
      | Throw e => (Throw e, [provision])
      | Normal signer =>
          let feePayer :=
            if isSvmSignerWallet L signer then Some (address L signer) else None in
          (Normal {| status := 200;
                     json := JsonSupported (evm ++ svm_kinds feePayer) |},
           [provision])
      end
    else (Normal {| status := 200; json := JsonSupported evm |}, []).
Proof.
  step_handler. destruct (truthy (SVM_PRIVATE_KEY env)); simpl; [|done].
  by destruct (createSigner L _ _ _).
Qed.

(** C6 does not hold of the code.  When the SVM key is configured and
    [createSigner] throws [e], [GET /supported] does not answer with the
    remaining kinds: the handler's promise is rejected with [e] after the
    one provisioning call, and no response is written; the EVM kinds
    collected before the call are lost with it. *)
Theorem supported_rejects_when_signer_throws
    (L : Library) (env : Env) (e : thrown) :
  SVM_PRIVATE_KEY env ≠ "" →
  createSigner L "solana-devnet" (SVM_PRIVATE_KEY env) None = Throw e →
  run (get_supported L env)
  = (Throw e, [CreateSigner "solana-devnet" (SVM_PRIVATE_KEY env) None]).
Proof.
  intros Hkey Hthrow. apply truthy_true in Hkey.
  rewrite get_supported_run, Hkey. simpl. by rewrite Hthrow.
Qed.

Lemma supported_rejects_when_signer_throws_witness :
  run (get_supported Demo.unreachable Demo.both_families)
  = (Throw Demo.key_error, [CreateSigner "solana-devnet" "svm-secret" None]).
Proof.
  apply (supported_rejects_when_signer_throws
           Demo.unreachable Demo.both_families Demo.key_error).
  - discriminate.
  - reflexivity.
Defined.

(** C7. Whenever [GET /supported] answers, its list holds only kinds of
    families whose private key is configured: each kind is one of the eight
    EVM kinds and then [EVM_PRIVATE_KEY] is non-empty, or one of the two
    SVM kinds and then [SVM_PRIVATE_KEY] is non-empty.  With registries
    that place the announced networks in the families under which the
    handler announces them, every announced network has a family and that
    family's credential is configured. *)
Theorem supported_kinds_need_credentials
    (L : Library) (env : Env) (r : Response L) :
  (run (get_supported L env)).1 = Normal r →
  ∃ kinds,
    r = {| status := 200; json := JsonSupported kinds |}
    ∧ (∀ k, k ∈ kinds →
         (k ∈ evm_kinds ∧ EVM_PRIVATE_KEY env ≠ "")
         ∨ (∃ feePayer, k ∈ svm_kinds feePayer) ∧ SVM_PRIVATE_KEY env ≠ "")
    ∧ ((∀ k, k ∈ evm_kinds → classify L (kind_network k) = Some EVM) →
       (∀ feePayer k, k ∈ svm_kinds feePayer →
          classify L (kind_network k) = Some SVM) →
       ∀ k, k ∈ kinds →
         ∃ f, classify L (kind_network k) = Some f ∧ credential env f ≠ "").
Proof.
  intros Hrun.
  assert (∃ kinds,
    r = {| status := 200; json := JsonSupported kinds |}
    ∧ ∀ k, k ∈ kinds →
        (k ∈ evm_kinds ∧ EVM_PRIVATE_KEY env ≠ "")
        ∨ (∃ feePayer, k ∈ svm_kinds feePayer) ∧ SVM_PRIVATE_KEY env ≠ "")
    as (kinds & -> & Hkinds).
  { rewrite get_supported_run in Hrun. simpl in Hrun.
    assert (∀ k, k ∈ (if truthy (EVM_PRIVATE_KEY env) then evm_kinds else []) →
                 k ∈ evm_kinds ∧ EVM_PRIVATE_KEY env ≠ "") as Hevm.
    { intros k Hk. destruct (truthy (EVM_PRIVATE_KEY env)) eqn:Hkey.
      - split; [done|]. by apply truthy_true.
      - by apply elem_of_nil in Hk. }
    destruct (truthy (SVM_PRIVATE_KEY env)) eqn:Hsvm.
    - destruct (createSigner L _ _ _) as [signer|e]; [|discriminate].
      injection Hrun as <-. eexists. split; [done|].
      intros k Hk. apply elem_of_app in Hk as [Hk | Hk].
      + left. by apply Hevm.
      + right. split; [by eexists|]. by apply truthy_true.
    - injection Hrun as <-. eexists. split; [done|].
      intros k Hk. left. by apply Hevm. }
  exists kinds. split; [done|]. split; [done|].
  intros Hreg_evm Hreg_svm k Hk.
  destruct (Hkinds k Hk) as [[Hin Hkey] | [[feePayer Hin] Hkey]].
  - exists EVM. split; [by apply Hreg_evm | done].
  - exists SVM. split; [by apply (Hreg_svm feePayer) | done].
Qed.

Lemma supported_kinds_need_credentials_witness :
  ∃ kinds,
    ({| status := 200; json := JsonSupported evm_kinds |} : Response Demo.sound)
    = {| status := 200; json := JsonSupported kinds |}
    ∧ ∀ k, k ∈ kinds →
        ∃ f, classify Demo.sound (kind_network k) = Some f
             ∧ credential Demo.evm_only f ≠ "".
Proof.
  destruct (supported_kinds_need_credentials Demo.sound Demo.evm_only
              {| status := 200; json := JsonSupported evm_kinds |} eq_refl)
    as (kinds & Heq & _ & Hregistry).
  exists kinds. split; [exact Heq|].
  apply Hregistry.
  - intros k Hk.
    repeat (apply elem_of_cons in Hk as [-> | Hk]; [reflexivity|]).
    by apply elem_of_nil in Hk.
  - intros feePayer k Hk.
    repeat (apply elem_of_cons in Hk as [-> | Hk]; [reflexivity|]).
    by apply elem_of_nil in Hk.
Defined.

(** * Further properties of the handlers *)

(** ** Every run of [POST /verify] and [POST /settle] *)

Section Cases.

Context (L : Library) (env : Env) (req : Request L).

Local Abbreviation config := (x402Config env).

(** Case analysis on a run of [POST /verify]: a failed validation, an
    unsupported network, a missing credential, or steps 4 and 5 on one of
    the two families. *)
Lemma verify_run_cases (P : completion (Response L) * list event → Prop) :
  (∀ e validations,
     validate L req = Throw e →
     validations = [ParseRequirements]
     ∨ validations = [ParseRequirements; ParsePayload] →
     P (Normal (bad_request (message_or "Invalid request" e)),
        validations ++ [error_record L env "[VERIFY ERROR]" None e])) →
  (∀ reqs payload,
     validate L req = Normal (reqs, payload) →
     classify L (network reqs) = None →
     P (Normal (unsupported_network (network reqs)),
        [ParseRequirements; ParsePayload])) →
  (∀ reqs payload f,
     validate L req = Normal (reqs, payload) →
     classify L (network reqs) = Some f → credential env f = "" →
     P (Normal (payments_not_supported f), [ParseRequirements; ParsePayload])) →
  (∀ reqs payload provision (client : completion (Signer L + ConnectedClient L)) kind,
     validate L req = Normal (reqs, payload) →
     (classify L (network reqs) = Some EVM ∧ EVM_PRIVATE_KEY env ≠ ""
      ∧ provision = CreateConnectedClient (network reqs)
                      (evm_rpcUrl config (network reqs))
      ∧ kind = ReadOnlyClient
      ∧ client = match createConnectedClient L (network reqs)
                         (evm_rpcUrl config (network reqs)) with
                 | Normal c => Normal (inr c)
                 | Throw e => Throw e
                 end)
     ∨ (classify L (network reqs) = Some SVM ∧ SVM_PRIVATE_KEY env ≠ ""
        ∧ provision = CreateSigner (network reqs) (SVM_PRIVATE_KEY env) None
        ∧ kind = SigningIdentity
        ∧ client = match createSigner L (network reqs)
                           (SVM_PRIVATE_KEY env) None with
                   | Normal s => Normal (inl s)
                   | Throw e => Throw e
                   end) →
     let steps := [ParseRequirements; ParsePayload; provision] in
     P (match client with
        | Throw e => caught L env reqs "[VERIFY ERROR]" "Invalid request" steps e
        | Normal client =>
            let steps := steps ++ [Verify kind (network reqs)] in
            match verify L client payload reqs config with
            | Throw e =>
                caught L env reqs "[VERIFY ERROR]" "Invalid request" steps e
            | Normal result =>
                (Normal {| status := 200; json := JsonVerify result |}, steps)
            end
        end)) →
  P (run (post_verify L env req)).
Proof.
  intros Hinvalid Hunsupported Hcredential Hsteps.
  destruct (validate L req) as [[reqs payload]|e] eqn:Hvalid.
  - destruct (classify L (network reqs)) as [f|] eqn:Hclass.
    + destruct (decide (credential env f = "")) as [Hkey|Hkey].
      * rewrite (verify_no_credential L env req reqs payload Hvalid f Hclass Hkey).
        by eapply Hcredential.
      * destruct f; simpl in Hkey.
        -- rewrite (verify_evm L env req reqs payload Hvalid Hclass Hkey).
           specialize (Hsteps reqs payload _ _ _ eq_refl
                         (or_introl (conj Hclass (conj Hkey
                            (conj eq_refl (conj eq_refl eq_refl)))))).
           simpl in Hsteps.
           by destruct (createConnectedClient L _ _).
        -- rewrite (verify_svm L env req reqs payload Hvalid Hclass Hkey).
           specialize (Hsteps reqs payload _ _ _ eq_refl
                         (or_intror (conj Hclass (conj Hkey
                            (conj eq_refl (conj eq_refl eq_refl)))))).
           simpl in Hsteps.
           by destruct (createSigner L _ _ _).
    + rewrite (verify_unsupported L env req reqs payload Hvalid Hclass).
      by eapply Hunsupported.
  - destruct (verify_invalid L env req e Hvalid) as (v & -> & Hv).
    by apply Hinvalid.
Qed.

(** Case analysis on a run of [POST /settle]. *)
Lemma settle_run_cases (P : completion (Response L) * list event → Prop) :
  (∀ e validations,
     validate L req = Throw e →
     validations = [ParseRequirements]
     ∨ validations = [ParseRequirements; ParsePayload] →
     P (Normal (bad_request (message_or "Settlement failed" e)),
        validations ++ [error_record L env "[SETTLE ERROR]" None e])) →
  (∀ reqs payload,
     validate L req = Normal (reqs, payload) →
     classify L (network reqs) = None →
     P (Normal (unsupported_network (network reqs)),
        [ParseRequirements; ParsePayload])) →
  (∀ reqs payload f,
     validate L req = Normal (reqs, payload) →
     classify L (network reqs) = Some f → credential env f = "" →
     P (Normal (payments_not_supported f), [ParseRequirements; ParsePayload])) →
  (∀ reqs payload f,
     validate L req = Normal (reqs, payload) →
     classify L (network reqs) = Some f → credential env f ≠ "" →
     P (settle_with L env reqs payload (credential env f)
          (settle_endpoint env f (network reqs)))) →
  P (run (post_settle L env req)).
Proof.
  intros Hinvalid Hunsupported Hcredential Hsteps.
  destruct (validate L req) as [[reqs payload]|e] eqn:Hvalid.
  - destruct (classify L (network reqs)) as [f|] eqn:Hclass.
    + destruct (decide (credential env f = "")) as [Hkey|Hkey].
      * rewrite (settle_no_credential L env req reqs payload Hvalid f Hclass Hkey).
        by eapply Hcredential.
      * specialize (Hsteps reqs payload f eq_refl Hclass Hkey).
        destruct f; simpl in Hkey, Hsteps.
        -- by rewrite (settle_evm L env req reqs payload Hvalid Hclass Hkey).
        -- by rewrite (settle_svm L env req reqs payload Hvalid Hclass Hkey).
    + rewrite (settle_unsupported L env req reqs payload Hvalid Hclass).
      by eapply Hunsupported.
  - destruct (settle_invalid L env req e Hvalid) as (v & -> & Hv).
    by apply Hinvalid.
Qed.

End Cases.

Ltac not_in_trace :=
  let Hin := fresh "Hin" in
  intros Hin; simpl in Hin;
  repeat (apply elem_of_cons in Hin as [Hin | Hin]; [discriminate Hin|]);
  by apply elem_of_nil in Hin.

Ltac settle_steps :=
  unfold settle_with, caught, error_record, settle_record,
    unsupported_network, payments_not_supported, bad_request; simpl;
  repeat match goal with
         | |- context [match createSigner ?L ?n ?k ?r with _ => _ end] =>
             destruct (createSigner L n k r); simpl
         | |- context [match settle ?L ?s ?p ?q ?c with _ => _ end] =>
             destruct (settle L s p q c); simpl
         end.

Ltac verify_steps Hfamily :=
  destruct Hfamily as [(_ & _ & -> & -> & ->) | (_ & _ & -> & -> & ->)];
  unfold caught, error_record; simpl;
  repeat match goal with
         | |- context [match createConnectedClient ?L ?n ?r with _ => _ end] =>
             destruct (createConnectedClient L n r); simpl
         | |- context [match createSigner ?L ?n ?k ?r with _ => _ end] =>
             destruct (createSigner L n k r); simpl
         | |- context [match verify ?L ?c ?p ?q ?g with _ => _ end] =>
             destruct (verify L c p q g); simpl
         end.

(** X3.  The two handlers answer every request, and only ever with status 200,
    400 or 503. *)
Theorem post_handlers_statuses (L : Library) (env : Env) (req : Request L) :
  ∃ r1 r2,
    (run (post_verify L env req)).1 = Normal r1
    ∧ (run (post_settle L env req)).1 = Normal r2
    ∧ (status r1 = 200 ∨ status r1 = 400 ∨ status r1 = 503)%nat
    ∧ (status r2 = 200 ∨ status r2 = 400 ∨ status r2 = 503)%nat.
Proof.
  assert (∃ r1, (run (post_verify L env req)).1 = Normal r1
                ∧ (status r1 = 200 ∨ status r1 = 400 ∨ status r1 = 503)%nat)
    as (r1 & Hr1 & Hs1).
  { apply verify_run_cases.
    - intros. eexists. split; [done|]. simpl. tauto.
    - intros. eexists. split; [done|]. simpl. tauto.
    - intros. eexists. split; [done|]. simpl. tauto.
    - intros reqs payload provision client kind _ Hfamily.
      verify_steps Hfamily; (eexists; split; [done|]; simpl; tauto). }
  assert (∃ r2, (run (post_settle L env req)).1 = Normal r2
                ∧ (status r2 = 200 ∨ status r2 = 400 ∨ status r2 = 503)%nat)
    as (r2 & Hr2 & Hs2).
  { apply settle_run_cases.
    - intros. eexists. split; [done|]. simpl. tauto.
    - intros. eexists. split; [done|]. simpl. tauto.
    - intros. eexists. split; [done|]. simpl. tauto.
    - intros reqs payload f _ _ _.
      settle_steps; (eexists; split; [done|]; simpl; tauto). }
  by exists r1, r2.
Qed.

(** X4.  Nothing is retried and nothing crosses over: a run of either handler
    provisions at most once and invokes the external operation at most
    once; [POST /verify] never settles; [POST /settle] never verifies and
    never creates a read-only client. *)
Theorem post_handlers_call_at_most_once
    (L : Library) (env : Env) (req : Request L) :
  let verified := (run (post_verify L env req)).2 in
  let settled := (run (post_settle L env req)).2 in
  (length (List.filter provisioning verified) ≤ 1
   ∧ length (List.filter invocation verified) ≤ 1
   ∧ length (List.filter provisioning settled) ≤ 1
   ∧ length (List.filter invocation settled) ≤ 1)%nat
  ∧ (∀ n, Settle n ∉ verified)
  ∧ (∀ kind n, Verify kind n ∉ settled)
  ∧ (∀ n rpc, CreateConnectedClient n rpc ∉ settled).
Proof.
  intros verified settled. subst verified settled.
  assert ((length (List.filter provisioning (run (post_verify L env req)).2) ≤ 1
           ∧ length (List.filter invocation (run (post_verify L env req)).2) ≤ 1)%nat
          ∧ ∀ n, Settle n ∉ (run (post_verify L env req)).2) as [[? ?] ?].
  { apply verify_run_cases.
    - intros e v _ [-> | ->]; simpl; (split; [lia|]); intros n; not_in_trace.
    - intros; simpl; (split; [lia|]); intros n; not_in_trace.
    - intros; simpl; (split; [lia|]); intros n; not_in_trace.
    - intros reqs payload provision client kind _ Hfamily.
      verify_steps Hfamily; (split; [lia|]); intros n; not_in_trace. }
  assert ((length (List.filter provisioning (run (post_settle L env req)).2) ≤ 1
           ∧ length (List.filter invocation (run (post_settle L env req)).2) ≤ 1)%nat
          ∧ (∀ kind n, Verify kind n ∉ (run (post_settle L env req)).2)
          ∧ ∀ n rpc, CreateConnectedClient n rpc ∉ (run (post_settle L env req)).2)
    as [[? ?] [? ?]].
  { apply settle_run_cases.
    - intros e v _ [-> | ->]; simpl; (split; [lia|]);
        split; intros ? ?; not_in_trace.
    - intros; simpl; (split; [lia|]); split; intros ? ?; not_in_trace.
    - intros; simpl; (split; [lia|]); split; intros ? ?; not_in_trace.
    - intros reqs payload f _ _ _.
      settle_steps; (split; [lia|]); split; intros ? ?; not_in_trace. }
  done.
Qed.

(** X5.  The console and the response agree: a run writes at most one
    [console.error] record; when it writes one, the record is the last step
    of the run, it is built from the exception that was caught, and the
    response is the 400 answer built from the same exception. *)
Theorem post_handlers_log_what_they_answer
    (L : Library) (env : Env) (req : Request L) :
  (List.filter console_error (run (post_verify L env req)).2 = []
   ∨ ∃ e n steps,
       run (post_verify L env req)
       = (Normal {| status := 400;
                    json := JsonError (message_or "Invalid request" e) |},
          steps ++ [error_record L env "[VERIFY ERROR]" n e])
       ∧ List.filter console_error steps = [])
  ∧ (List.filter console_error (run (post_settle L env req)).2 = []
     ∨ ∃ e n steps,
         run (post_settle L env req)
         = (Normal {| status := 400;
                      json := JsonError (message_or "Settlement failed" e) |},
            steps ++ [error_record L env "[SETTLE ERROR]" n e])
         ∧ List.filter console_error steps = []).
Proof.
  split.
  - apply verify_run_cases.
    + intros e v _ Hv. right. exists e, None, v. split; [done|].
      by destruct Hv as [-> | ->].
    + intros. by left.
    + intros. by left.
    + intros reqs payload provision client kind _ Hfamily.
      destruct Hfamily as [(_ & _ & -> & -> & ->) | (_ & _ & -> & -> & ->)];
        unfold caught;
        repeat match goal with
          | |- context [match createConnectedClient ?L ?n ?r with _ => _ end] =>
              destruct (createConnectedClient L n r); simpl
          | |- context [match createSigner ?L ?n ?k ?r with _ => _ end] =>
              destruct (createSigner L n k r); simpl
          | |- context [match verify ?L ?c ?p ?q ?g with _ => _ end] =>
              destruct (verify L c p q g); simpl
          end;
        first
        [ by left
        | match goal with
          | |- _ ∨ (∃ e n steps, (_, ?t) = _ ∧ _) =>
              right; eexists _, _, (removelast t); split; [reflexivity|done]
          end ].
  - apply settle_run_cases.
    + intros e v _ Hv. right. exists e, None, v. split; [done|].
      by destruct Hv as [-> | ->].
    + intros. by left.
    + intros. by left.
    + intros reqs payload f _ _ _. unfold settle_with, caught.
      repeat match goal with
        | |- context [match createSigner ?L ?n ?k ?r with _ => _ end] =>
            destruct (createSigner L n k r); simpl
        | |- context [match settle ?L ?s ?p ?q ?c with _ => _ end] =>
            destruct (settle L s p q c); simpl
        end;
      first
        [ by left
        | match goal with
          | |- _ ∨ (∃ e n steps, (_, ?t) = _ ∧ _) =>
              right; eexists _, _, (removelast t); split; [reflexivity|done]
          end ].
Qed.

(** X6.  [POST /verify] answers 200 only when the client it provisioned for the
    request's family was obtained and the external verification returned;
    the body is then that result, unmodified, and nothing was logged as an
    error. *)
Theorem verify_success_is_the_external_result
    (L : Library) (env : Env) (req : Request L) (r : Response L) :
  (run (post_verify L env req)).1 = Normal r →
  status r = 200%nat →
  ∃ reqs payload client result,
    validate L req = Normal (reqs, payload)
    ∧ ((∃ c, createConnectedClient L (network reqs)
               (evm_rpcUrl (x402Config env) (network reqs)) = Normal c
             ∧ client = inr c)
       ∨ (∃ s, createSigner L (network reqs) (SVM_PRIVATE_KEY env) None = Normal s
               ∧ client = inl s))
    ∧ verify L client payload reqs (x402Config env) = Normal result
    ∧ r = {| status := 200; json := JsonVerify result |}
    ∧ List.filter console_error (run (post_verify L env req)).2 = [].
Proof.
  revert r. pattern (run (post_verify L env req)). apply verify_run_cases.
  - intros e v _ _ r Hr Hs. simpl in Hr. injection Hr as Hr; subst r. simpl in Hs. discriminate Hs.
  - intros reqs payload _ _ r Hr Hs. simpl in Hr. injection Hr as Hr; subst r. simpl in Hs. discriminate Hs.
  - intros reqs payload f _ _ _ r Hr Hs. simpl in Hr. injection Hr as Hr; subst r. simpl in Hs. discriminate Hs.
  - intros reqs payload provision client kind Hvalid Hfamily steps r.
    subst steps.
    destruct Hfamily as [(_ & _ & -> & -> & ->) | (_ & _ & -> & -> & ->)];
      unfold caught.
    + destruct (createConnectedClient L _ _) as [c|e] eqn:Hc; simpl;
        [|intros Hr Hst; simpl in Hr; injection Hr as Hr; subst r; simpl in Hst; discriminate Hst].
      destruct (verify L _ _ _ _) as [result|e] eqn:Hv; simpl;
        [|intros Hr Hst; simpl in Hr; injection Hr as Hr; subst r; simpl in Hst; discriminate Hst].
      intros Hr _. simpl in Hr. injection Hr as Hr. subst r.
      exists reqs, payload, (inr c), result.
      repeat split; try done. left. by exists c.
    + destruct (createSigner L _ _ _) as [s|e] eqn:Hs; simpl;
        [|intros Hr Hst; simpl in Hr; injection Hr as Hr; subst r; simpl in Hst; discriminate Hst].
      destruct (verify L _ _ _ _) as [result|e] eqn:Hv; simpl;
        [|intros Hr Hst; simpl in Hr; injection Hr as Hr; subst r; simpl in Hst; discriminate Hst].
      intros Hr _. simpl in Hr. injection Hr as Hr. subst r.
      exists reqs, payload, (inl s), result.
      repeat split; try done. right. by exists s.
Qed.

Lemma verify_success_is_the_external_result_witness :
  let req := Demo.request (fun n => Normal n) (fun _ => Normal 42)
               (Normal "FeePayer111") true (Normal true)
               (Normal Demo.receipt) "base" in
  ∃ reqs payload client result,
    validate Demo.sound req = Normal (reqs, payload)
    ∧ ((∃ c, createConnectedClient Demo.sound (network reqs)
               (evm_rpcUrl (x402Config Demo.both_families) (network reqs))
             = Normal c ∧ client = inr c)
       ∨ (∃ s, createSigner Demo.sound (network reqs)
                 (SVM_PRIVATE_KEY Demo.both_families) None = Normal s
               ∧ client = inl s))
    ∧ verify Demo.sound client payload reqs (x402Config Demo.both_families)
      = Normal result
    ∧ ({| status := 200; json := @JsonVerify Demo.sound true |} : Response Demo.sound)
      = {| status := 200; json := JsonVerify result |}
    ∧ List.filter console_error
        (run (post_verify Demo.sound Demo.both_families req)).2 = [].
Proof.
  intros req.
  apply (verify_success_is_the_external_result Demo.sound Demo.both_families
           req {| status := 200; json := @JsonVerify Demo.sound true |});
    reflexivity.
Defined.

(** X7.  [POST /settle] answers 200 only when the signer of the request's family
    was created from that family's key and the external settlement
    returned; the body is then the settlement response, unmodified, and the
    last step of the run is the [console.log] record of that response. *)
Theorem settle_success_is_the_external_response
    (L : Library) (env : Env) (req : Request L) (r : Response L) :
  (run (post_settle L env req)).1 = Normal r →
  status r = 200%nat →
  ∃ reqs payload f signer response,
    validate L req = Normal (reqs, payload)
    ∧ classify L (network reqs) = Some f
    ∧ credential env f ≠ ""
    ∧ createSigner L (network reqs) (credential env f)
        (settle_endpoint env f (network reqs)) = Normal signer
    ∧ settle L signer payload reqs (x402Config env) = Normal response
    ∧ run (post_settle L env req)
      = (Normal {| status := 200; json := JsonSettle response |},
         [ParseRequirements; ParsePayload;
          CreateSigner (network reqs) (credential env f)
            (settle_endpoint env f (network reqs));
          Settle (network reqs); settle_record L response]).
Proof.
  revert r. pattern (run (post_settle L env req)). apply settle_run_cases.
  - intros e v _ _ r Hr Hs. simpl in Hr. injection Hr as Hr; subst r. simpl in Hs. discriminate Hs.
  - intros reqs payload _ _ r Hr Hs. simpl in Hr. injection Hr as Hr; subst r. simpl in Hs. discriminate Hs.
  - intros reqs payload f _ _ _ r Hr Hs. simpl in Hr. injection Hr as Hr; subst r. simpl in Hs. discriminate Hs.
  - intros reqs payload f Hvalid Hclass Hkey r. unfold settle_with, caught.
    destruct (createSigner L _ _ _) as [signer|e] eqn:Hs; simpl;
      [|intros Hr Hst; simpl in Hr; injection Hr as Hr; subst r; simpl in Hst; discriminate Hst].
    destruct (settle L _ _ _ _) as [response|e] eqn:Hv; simpl;
      [|intros Hr Hst; simpl in Hr; injection Hr as Hr; subst r; simpl in Hst; discriminate Hst].
    intros Hr _. simpl in Hr. injection Hr as Hr. subst r.
    by exists reqs, payload, f, signer, response.
Qed.

Lemma settle_success_is_the_external_response_witness :
  let req := Demo.request (fun n => Normal n) (fun _ => Normal 42)
               (Normal "FeePayer111") true (Normal true)
               (Normal Demo.receipt) "sepolia" in
  ∃ reqs payload f signer response,
    validate Demo.sound req = Normal (reqs, payload)
    ∧ classify Demo.sound (network reqs) = Some f
    ∧ credential Demo.both_families f ≠ ""
    ∧ createSigner Demo.sound (network reqs) (credential Demo.both_families f)
        (settle_endpoint Demo.both_families f (network reqs)) = Normal signer
    ∧ settle Demo.sound signer payload reqs (x402Config Demo.both_families)
      = Normal response
    ∧ run (post_settle Demo.sound Demo.both_families req)
      = (Normal {| status := 200; json := JsonSettle response |},
         [ParseRequirements; ParsePayload;
          CreateSigner (network reqs) (credential Demo.both_families f)
            (settle_endpoint Demo.both_families f (network reqs));
          Settle (network reqs); settle_record Demo.sound response]).
Proof.
  intros req.
  apply (settle_success_is_the_external_response Demo.sound Demo.both_families
           req {| status := 200; json := JsonSettle Demo.receipt |});
    reflexivity.
Defined.

(** X8.  A settlement outcome is reported as it is: once the signer of the
    request's family is created and the external settlement returns a
    response, [POST /settle] answers 200 with that response, whatever its
    [success] flag says, after exactly one [settle] call. *)
Theorem settle_reports_outcome_as_is
    (L : Library) (env : Env) (req : Request L) reqs payload f signer response :
  validate L req = Normal (reqs, payload) →
  classify L (network reqs) = Some f →
  credential env f ≠ "" →
  createSigner L (network reqs) (credential env f)
    (settle_endpoint env f (network reqs)) = Normal signer →
  settle L signer payload reqs (x402Config env) = Normal response →
  (run (post_settle L env req)).1
  = Normal {| status := 200; json := JsonSettle response |}
  ∧ List.filter invocation (run (post_settle L env req)).2
    = [Settle (network reqs)].
Proof.
  intros Hvalid Hclass Hkey Hsigner Hsettle.
  assert (run (post_settle L env req)
          = settle_with L env reqs payload (credential env f)
              (settle_endpoint env f (network reqs))) as ->.
  { destruct f; simpl in *.
    - by apply settle_evm.
    - by apply settle_svm. }
  unfold settle_with. by rewrite Hsigner, Hsettle.
Qed.

Lemma settle_reports_outcome_as_is_witness :
  let req := Demo.request (fun n => Normal n) (fun _ => Normal 42)
               (Normal "FeePayer111") true (Normal true)
               (Normal Scenario.declined_receipt) "sepolia" in
  (run (post_settle Scenario.declining Demo.both_families req)).1
  = Normal {| status := 200; json := JsonSettle Scenario.declined_receipt |}
  ∧ List.filter invocation
      (run (post_settle Scenario.declining Demo.both_families req)).2
    = [Settle "sepolia"].
Proof.
  intros req.
  apply (settle_reports_outcome_as_is Scenario.declining Demo.both_families req
           {| network := "sepolia"; terms := tt |} tt EVM "FeePayer111"
           Scenario.declined_receipt);
    first [reflexivity | discriminate].
Defined.

(** ** Custody: where the value of the EVM private key matters *)

(** X9.  Replacing the EVM private key by any other non-empty key changes
    nothing in [POST /verify], [GET /health], [GET /health/rpc] and
    [GET /supported]: they test that the key is present and never use its
    value.  Neither the response nor any step of the run differs. *)
Theorem evm_key_value_is_not_read_outside_settle
    (L : Library) (env : Env) (key : string) :
  EVM_PRIVATE_KEY env ≠ "" →
  key ≠ "" →
  (∀ req, run (post_verify L (with_evm_key env key) req)
          = run (post_verify L env req))
  ∧ run (get_health L (with_evm_key env key)) = run (get_health L env)
  ∧ run (get_health_rpc L (with_evm_key env key)) = run (get_health_rpc L env)
  ∧ run (get_supported L (with_evm_key env key)) = run (get_supported L env).
Proof.
  intros Hold Hnew. apply truthy_true in Hold, Hnew.
  repeat split.
  - intros req. unfold run. f_equal.
    unfold post_verify, verify_catch, rpcUrl_label. simpl.
    by rewrite Hold, Hnew.
  - unfold run, get_health. simpl. by rewrite Hold, Hnew.
  - unfold run, get_health_rpc, health_checks. simpl.
    by rewrite Hold, Hnew.
  - unfold run, get_supported. simpl. by rewrite Hold, Hnew.
Qed.

Lemma evm_key_value_is_not_read_outside_settle_witness :
  (∀ req, run (post_verify Demo.sound
                 (with_evm_key Demo.both_families "0xother") req)
          = run (post_verify Demo.sound Demo.both_families req))
  ∧ run (get_health Demo.sound (with_evm_key Demo.both_families "0xother"))
    = run (get_health Demo.sound Demo.both_families)
  ∧ run (get_health_rpc Demo.sound (with_evm_key Demo.both_families "0xother"))
    = run (get_health_rpc Demo.sound Demo.both_families)
  ∧ run (get_supported Demo.sound (with_evm_key Demo.both_families "0xother"))
    = run (get_supported Demo.sound Demo.both_families).
Proof.
  apply (evm_key_value_is_not_read_outside_settle Demo.sound Demo.both_families
           "0xother"); discriminate.
Defined.

(** ** The configuration built from the environment *)

(** X2.  [x402Config] is [undefined] exactly when no RPC URL is set.  Otherwise
    each family's part depends on that family's variables only: [svmConfig]
    is present exactly when [SVM_RPC_URL] is set and then holds it;
    [evmConfig] is present exactly when one of the two EVM URLs is set, and
    its [rpcUrls] holds no empty URL and no key other than [sepolia] and
    [filecoin-calibration], each with its own variable's value. *)
Theorem x402Config_shape (env : Env) :
  (x402Config env = None
   ↔ SVM_RPC_URL env = "" ∧ SEPOLIA_RPC_URL env = ""
     ∧ FILECOIN_CALIBRATION_RPC_URL env = "")
  ∧ ∀ c, x402Config env = Some c →
      (svmConfig c = None ↔ SVM_RPC_URL env = "")
      ∧ (∀ u, svmConfig c = Some u → rpcUrl u = SVM_RPC_URL env)
      ∧ (evmConfig c = None
         ↔ SEPOLIA_RPC_URL env = "" ∧ FILECOIN_CALIBRATION_RPC_URL env = "")
      ∧ (∀ e n url, evmConfig c = Some e → (n, url) ∈ rpcUrls e →
           url ≠ ""
           ∧ ((n = "sepolia" ∧ url = SEPOLIA_RPC_URL env)
              ∨ (n = "filecoin-calibration"
                 ∧ url = FILECOIN_CALIBRATION_RPC_URL env))).
Proof.
  unfold x402Config.
  destruct (truthy (SVM_RPC_URL env)) eqn:Hsvm;
    destruct (truthy (SEPOLIA_RPC_URL env)) eqn:Hsep;
    destruct (truthy (FILECOIN_CALIBRATION_RPC_URL env)) eqn:Hfil;
    simpl;
    repeat match goal with
           | H : truthy _ = true |- _ => apply truthy_true in H
           | H : truthy _ = false |- _ => apply truthy_false in H
           end.
  all: split;
    [split; [intros Hc; first [discriminate Hc | by repeat split]
            | intros (? & ? & ?); first [done | congruence]]|].
  all: intros c Hc; first [discriminate Hc | injection Hc as <-]; simpl.
  all: split;
    [split; [intros Hx; first [discriminate Hx | done]
            | intros Hx; first [done | congruence]]|].
  all: split; [intros u Hu; first [discriminate Hu | by injection Hu as <-]|].
  all: split;
    [split; [intros Hx; first [discriminate Hx | by repeat split]
            | intros (? & ?); first [done | congruence]]|].
  all: intros e n url He Hin; first [discriminate He | injection He as <-];
    simpl in Hin;
    repeat (apply elem_of_cons in Hin as [[= -> ->] | Hin];
            [split; [done | tauto]|]);
    by apply elem_of_nil in Hin.
Qed.

Lemma x402Config_shape_witness :
  SEPOLIA_RPC_URL Scenario.svm_only ≠ ""
  ∧ (("sepolia" = "sepolia"
      ∧ "https://sepolia.example" = SEPOLIA_RPC_URL Scenario.svm_only)
     ∨ ("sepolia" = "filecoin-calibration"
        ∧ "https://sepolia.example"
          = FILECOIN_CALIBRATION_RPC_URL Scenario.svm_only)).
Proof.
  apply (proj2 (proj2 (proj2
           (proj2 (x402Config_shape Scenario.svm_only)
              {| svmConfig := Some {| rpcUrl := "https://solana.example" |};
                 evmConfig :=
                   Some {| rpcUrls := [("sepolia", "https://sepolia.example")] |} |}
              eq_refl)))
           {| rpcUrls := [("sepolia", "https://sepolia.example")] |}
           "sepolia" "https://sepolia.example" eq_refl).
  by left.
Defined.

(** ** [GET /health/rpc]: entries, latencies and calls *)

Section HealthAccounting.

Context (L : Library).

Lemma probe_evm_accounting n url m :
  ∃ t,
    probe_evm L n url m
    = (Normal (evm_entry (evm_probe L n url)
                 (clock L (S (readings m)) - clock L (readings m))),
       {| readings := S (S (readings m)); var_network := var_network m;
          trace := trace m ++ t |})
    ∧ (t = [CreateConnectedClient n (Some url)]
       ∨ t = [CreateConnectedClient n (Some url); GetBlockNumber n]).
Proof.
  unfold probe_evm, evm_probe, try_catch, call, bind, ret, record_event,
    Date_now; simpl.
  destruct (createConnectedClient L n (Some url)) as [client|e]; simpl.
  - exists [CreateConnectedClient n (Some url); GetBlockNumber n].
    split; [|by right].
    destruct (getBlockNumber L client) as [b|e]; simpl;
      by rewrite <- app_assoc.
  - exists [CreateConnectedClient n (Some url)]. by split; [|left].
Qed.

Lemma evm_entry_well_formed outcome j :
  well_formed_entry L (evm_entry outcome (clock L (S j) - clock L j)).
Proof.
  destruct outcome; (split; [by exists j|]); simpl; [|done].
  by intros [? ?].
Qed.

Lemma check_evm_accounting entries :
  ∀ checks m,
    map_Forall (λ _, well_formed_entry L) checks →
    ∃ checks' m' t,
      check_evm L entries checks m = (Normal checks', m')
      ∧ trace m' = trace m ++ t
      ∧ Forall (λ e, ∃ n url, (n, url) ∈ entries
                              ∧ (e = CreateConnectedClient n (Some url)
                                 ∨ e = GetBlockNumber n)) t
      ∧ map_Forall (λ _, well_formed_entry L) checks'.
Proof.
  induction entries as [|[k u] rest IH]; intros checks m Hwf.
  - exists checks, m, []. by rewrite app_nil_r.
  - simpl. destruct (truthy u) eqn:Hu; simpl.
    + destruct (probe_evm_accounting k u m) as (t1 & Hprobe & Ht1).
      unfold bind at 1. rewrite Hprobe.
      match goal with
      | |- context [check_evm L rest ?inserted ?m1] =>
          destruct (IH inserted m1)
            as (checks' & m' & t2 & Hrun & Htrace & Hcalls & Hwf')
      end.
      { apply map_Forall_insert_2; [apply evm_entry_well_formed | exact Hwf]. }
      exists checks', m', (t1 ++ t2). split; [exact Hrun|].
      split; [by rewrite Htrace, app_assoc|]. split; [|done].
      apply Forall_app. split.
      * destruct Ht1 as [-> | ->]; repeat constructor;
          exists k, u; (split; [by left | tauto]).
      * eapply Forall_impl; [exact Hcalls|].
        intros e (n & url & Hin & He). exists n, url. split; [by right | done].
    + destruct (IH checks m Hwf) as (checks' & m' & t & Hrun & Htrace & Hcalls & Hwf').
      exists checks', m', t. split; [done|]. split; [done|]. split; [|done].
      eapply Forall_impl; [exact Hcalls|].
      intros e (n & url & Hin & He). exists n, url. split; [by right | done].
Qed.

Context (env : Env).

Lemma check_svm_accounting checks m :
  map_Forall (λ _, well_formed_entry L) checks →
  ∃ checks' m',
    check_svm L env checks m = (Normal checks', m')
    ∧ trace m'
      = trace m ++ [CreateSigner "solana-devnet" (SVM_PRIVATE_KEY env) None]
    ∧ map_Forall (λ _, well_formed_entry L) checks'.
Proof.
  intros Hwf.
  unfold check_svm, try_catch, call, bind, ret, record_event, Date_now; simpl.
  destruct (createSigner L _ _ _) as [signer|e]; simpl.
  - destruct (isSvmSignerWallet L signer); simpl; do 2 eexists;
      (split; [done|]); (split; [done|]); [|done].
    apply map_Forall_insert_2; [|done].
    split; [by eexists | by intros [? ?]].
  - do 2 eexists. split; [done|]. split; [done|].
    apply map_Forall_insert_2; [|done].
    split; [by eexists | done].
Qed.

Lemma health_checks_accounting :
  ∃ checks m,
    health_checks L env start_machine = (Normal checks, m)
    ∧ Forall (health_call env) (trace m)
    ∧ map_Forall (λ _, well_formed_entry L) checks.
Proof.
  rewrite health_checks_endpoints. unfold bind.
  destruct (check_evm_accounting (evm_endpoints env) ∅ start_machine)
    as (checks1 & m1 & t & -> & Htrace & Hcalls & Hwf);
    [apply map_Forall_empty|].
  simpl in Htrace.
  assert (Forall (health_call env) (trace m1)) as Hcalls1.
  { rewrite Htrace. eapply Forall_impl; [exact Hcalls|].
    intros e He. unfold health_call. by left. }
  destruct (svm_probed env).
  - destruct (check_svm_accounting checks1 m1 Hwf)
      as (checks2 & m2 & -> & Htrace2 & Hwf2).
    exists checks2, m2. split; [done|]. split; [|done].
    rewrite Htrace2. apply Forall_app. split; [done|].
    constructor; [|constructor]. unfold health_call. by right.
  - by exists checks1, m1.
Qed.

End HealthAccounting.

(** One run of [GET /health/rpc], with everything known about it. *)
Lemma health_rpc_summary (L : Library) (env : Env) :
  ∃ checks m,
    run (get_health_rpc L env)
    = (Normal
         {| status := if forallb healthy (Object_values checks)
                      then 200%nat else 503%nat;
            json := JsonHealthRpc
                      (if forallb healthy (Object_values checks)
                       then "healthy" else "degraded")
                      checks (clock L (readings m)) |},
       trace m)
    ∧ (∀ n url, (n, url) ∈ evm_endpoints env →
         ∃ elapsed, checks !! n = Some (evm_entry (evm_probe L n url) elapsed))
    ∧ (svm_probed env = true →
         ∃ elapsed,
           checks !! "solana-devnet"
           = svm_entry L
               (createSigner L "solana-devnet" (SVM_PRIVATE_KEY env) None)
               elapsed)
    ∧ (∀ n, n ∉ (evm_endpoints env).*1 →
         ¬ (svm_probed env = true ∧ n = "solana-devnet") → checks !! n = None)
    ∧ Forall (health_call env) (trace m)
    ∧ map_Forall (λ _, well_formed_entry L) checks.
Proof.
  destruct (get_health_rpc_run L env) as (checks & m & Hchecks & Hrun).
  destruct (health_checks_spec L env start_machine)
    as (checks1 & m1 & Hchecks1 & Hevm & Hsvm & Hnone).
  destruct (health_checks_accounting L env)
    as (checks2 & m2 & Hchecks2 & Hcalls & Hwf).
  rewrite Hchecks in Hchecks1, Hchecks2.
  injection Hchecks1 as <- <-. injection Hchecks2 as <- <-.
  by exists checks, m.
Qed.

(** X10.  [checks] has an entry for every EVM endpoint that is configured together
    with the EVM key, and for nothing but probed networks: its keys are
    among [sepolia], [filecoin-calibration] and [solana-devnet], each only
    under the configuration that makes the handler probe it.  The other
    networks the service supports are never health-checked. *)
Theorem health_entries_are_the_probed_networks (L : Library) (env : Env) :
  ∃ r label checks timestamp,
    (run (get_health_rpc L env)).1 = Normal r
    ∧ json r = JsonHealthRpc label checks timestamp
    ∧ (EVM_PRIVATE_KEY env ≠ "" → SEPOLIA_RPC_URL env ≠ "" →
         is_Some (checks !! "sepolia"))
    ∧ (EVM_PRIVATE_KEY env ≠ "" → FILECOIN_CALIBRATION_RPC_URL env ≠ "" →
         is_Some (checks !! "filecoin-calibration"))
    ∧ ∀ n, is_Some (checks !! n) →
        (n = "sepolia" ∧ SEPOLIA_RPC_URL env ≠ "" ∧ EVM_PRIVATE_KEY env ≠ "")
        ∨ (n = "filecoin-calibration" ∧ FILECOIN_CALIBRATION_RPC_URL env ≠ ""
           ∧ EVM_PRIVATE_KEY env ≠ "")
        ∨ (n = "solana-devnet" ∧ SVM_RPC_URL env ≠ ""
           ∧ SVM_PRIVATE_KEY env ≠ "").
Proof.
  destruct (health_rpc_summary L env)
    as (checks & m & Hrun & Hevm & _ & Hnone & _ & _).
  rewrite Hrun. do 4 eexists. split; [done|]. split; [done|].
  rewrite evm_endpoints_env in Hevm, Hnone.
  split; [|split].
  - intros Hkey Hurl. apply truthy_true in Hkey, Hurl.
    rewrite Hkey, Hurl in Hevm.
    destruct (Hevm "sepolia" (SEPOLIA_RPC_URL env)) as [elapsed ->];
      [by left | by eexists].
  - intros Hkey Hurl. apply truthy_true in Hkey, Hurl.
    rewrite Hkey, Hurl in Hevm.
    destruct (Hevm "filecoin-calibration" (FILECOIN_CALIBRATION_RPC_URL env))
      as [elapsed ->]; [|by eexists].
    apply elem_of_app. right. by left.
  - intros n Hn.
    destruct (decide (n = "sepolia" ∧ SEPOLIA_RPC_URL env ≠ ""
                      ∧ EVM_PRIVATE_KEY env ≠ "")) as [|Hsep]; [tauto|].
    destruct (decide (n = "filecoin-calibration"
                      ∧ FILECOIN_CALIBRATION_RPC_URL env ≠ ""
                      ∧ EVM_PRIVATE_KEY env ≠ "")) as [|Hfil]; [tauto|].
    destruct (decide (n = "solana-devnet" ∧ SVM_RPC_URL env ≠ ""
                      ∧ SVM_PRIVATE_KEY env ≠ "")) as [|Hsol]; [tauto|].
    exfalso. rewrite Hnone in Hn; [by destruct Hn|..].
    + destruct (truthy (EVM_PRIVATE_KEY env)) eqn:Hkey;
        [apply truthy_true in Hkey | apply not_elem_of_nil].
      destruct (truthy (SEPOLIA_RPC_URL env)) eqn:Hs;
        destruct (truthy (FILECOIN_CALIBRATION_RPC_URL env)) eqn:Hf; simpl;
        repeat match goal with
               | H : truthy _ = true |- _ => apply truthy_true in H
               end;
        rewrite ?not_elem_of_cons; repeat split;
        try apply not_elem_of_nil; intros ->; tauto.
    + intros [Hprobed ->]. apply Hsol. unfold svm_probed in Hprobed.
      apply andb_true_iff in Hprobed as [H1 H2].
      by apply truthy_true in H1, H2.
Qed.


(** X12.  [GET /health/rpc] only ever creates clients and reads chain heights for
    the endpoints its loop visits, and creates the [solana-devnet] signer
    with the SVM key and no endpoint: it never invokes verify or settle and
    never hands the EVM private key to anything. *)
Theorem health_calls_are_probes_only (L : Library) (env : Env) :
  Forall (health_call env) (run (get_health_rpc L env)).2
  ∧ List.filter invocation (run (get_health_rpc L env)).2 = []
  ∧ ∀ n key rpc,
      CreateSigner n key rpc ∈ (run (get_health_rpc L env)).2 →
      n = "solana-devnet" ∧ key = SVM_PRIVATE_KEY env ∧ rpc = None.
Proof.
  destruct (health_rpc_summary L env)
    as (checks & m & Hrun & _ & _ & _ & Hcalls & _).
  rewrite Hrun. simpl. clear Hrun. split; [done|]. split.
  - induction Hcalls as [|e t He _ IH]; [done|]. simpl.
    destruct He as [(n & url & _ & [-> | ->]) | ->]; by simpl.
  - intros n key rpc Hin.
    rewrite Forall_forall in Hcalls. apply Hcalls in Hin.
    destruct Hin as [(n' & url & _ & [Heq | Heq]) | Heq];
      try discriminate Heq.
    by injection Heq as -> -> ->.
Qed.

(** X13.  An endpoint that answers with a chain height of zero (or below) is
    reported unhealthy without an [error] field, and that alone makes the
    whole check answer 503 ["degraded"]. *)
Theorem stalled_endpoint_degrades_without_error
    (L : Library) (env : Env) (n url : string) (blockNumber : Z) :
  (n, url) ∈ evm_endpoints env →
  evm_probe L n url = Normal blockNumber →
  (blockNumber ≤ 0)%Z →
  ∃ checks timestamp c,
    (run (get_health_rpc L env)).1
    = Normal {| status := 503;
                json := JsonHealthRpc "degraded" checks timestamp |}
    ∧ checks !! n = Some c ∧ healthy c = false ∧ error c = None.
Proof.
  intros Hin Hprobe Hheight.
  destruct (health_rpc_summary L env)
    as (checks & m & Hrun & Hevm & _ & _ & _ & _).
  destruct (Hevm n url Hin) as [elapsed Hentry].
  rewrite Hprobe in Hentry. simpl in Hentry.
  rewrite bool_decide_eq_false_2 in Hentry by lia.
  rewrite Hrun. simpl.
  destruct (forallb healthy (Object_values checks)) eqn:Hall.
  - by pose proof (proj1 (all_healthy checks) Hall n _ Hentry).
  - by do 3 eexists.
Qed.

Lemma stalled_endpoint_degrades_without_error_witness :
  ∃ checks timestamp c,
    (run (get_health_rpc Scenario.stalled Demo.both_families)).1
    = Normal {| status := 503;
                json := JsonHealthRpc "degraded" checks timestamp |}
    ∧ checks !! "sepolia" = Some c ∧ healthy c = false ∧ error c = None.
Proof.
  apply (stalled_endpoint_degrades_without_error Scenario.stalled
           Demo.both_families "sepolia" "https://sepolia.example" 0).
  - by left.
  - reflexivity.
  - done.
Defined.

(** X14.  When [createSigner] returns a signer that is not an SVM wallet, the
    Solana probe writes nothing: [checks] has no [solana-devnet] entry, so
    the probe cannot make the verdict degraded. *)
Theorem foreign_signer_leaves_no_entry
    (L : Library) (env : Env) (signer : Signer L) :
  SVM_RPC_URL env ≠ "" →
  SVM_PRIVATE_KEY env ≠ "" →
  createSigner L "solana-devnet" (SVM_PRIVATE_KEY env) None = Normal signer →
  isSvmSignerWallet L signer = false →
  ∃ r label checks timestamp,
    (run (get_health_rpc L env)).1 = Normal r
    ∧ json r = JsonHealthRpc label checks timestamp
    ∧ checks !! "solana-devnet" = None.
Proof.
  intros Hurl Hkey Hsigner Hwallet. apply truthy_true in Hurl, Hkey.
  destruct (health_rpc_summary L env)
    as (checks & m & Hrun & _ & Hsvm & _ & _ & _).
  destruct Hsvm as [elapsed Hentry].
  { unfold svm_probed. by rewrite Hurl, Hkey. }
  rewrite Hsigner in Hentry. simpl in Hentry. rewrite Hwallet in Hentry.
  rewrite Hrun. by do 4 eexists.
Qed.

Lemma foreign_signer_leaves_no_entry_witness :
  ∃ r label checks timestamp,
    (run (get_health_rpc Scenario.foreign_signer Demo.both_families)).1
    = Normal r
    ∧ json r = JsonHealthRpc label checks timestamp
    ∧ checks !! "solana-devnet" = None.
Proof.
  apply (foreign_signer_leaves_no_entry Scenario.foreign_signer
           Demo.both_families "0xEvmSigner");
    first [discriminate | reflexivity].
Defined.

(** ** [GET /supported]: the shape of the list, and what it promises *)

(** The list of an answering [GET /supported]. *)
Lemma supported_answer (L : Library) (env : Env) (r : Response L) :
  (run (get_supported L env)).1 = Normal r →
  ∃ feePayer,
    r = {| status := 200;
           json := JsonSupported
                     ((if truthy (EVM_PRIVATE_KEY env) then evm_kinds else [])
                      ++ (if truthy (SVM_PRIVATE_KEY env)
                          then svm_kinds feePayer else [])) |}.
Proof.
  rewrite get_supported_run. simpl.
  destruct (truthy (SVM_PRIVATE_KEY env)).
  - destruct (createSigner L _ _ _) as [signer|e]; [|discriminate].
    intros [= <-]. by eexists.
  - intros [= <-]. exists None. by rewrite app_nil_r.
Qed.

(** X15.  Whenever [GET /supported] answers, the networks it lists are pairwise
    distinct, every kind is version 1 of the scheme [exact], the EVM kinds
    carry no [extra] and the SVM kinds all carry the same [feePayer]; the
    list has eight kinds for a configured EVM key plus two for a configured
    SVM key, so it is not empty in a process that passed the start-up
    guard. *)
Theorem supported_list_shape (L : Library) (env : Env) (r : Response L) :
  (run (get_supported L env)).1 = Normal r →
  ∃ kinds,
    r = {| status := 200; json := JsonSupported kinds |}
    ∧ NoDup (kind_network <$> kinds)
    ∧ (∀ k, k ∈ kinds → x402Version k = 1 ∧ scheme k = "exact")
    ∧ (∀ k1 k2, k1 ∈ kinds → k2 ∈ kinds →
         is_Some (extra k1) → is_Some (extra k2) → extra k1 = extra k2)
    ∧ length kinds
      = ((if truthy (EVM_PRIVATE_KEY env) then 8 else 0)
         + (if truthy (SVM_PRIVATE_KEY env) then 2 else 0))%nat
    ∧ (starts env = true → kinds ≠ []).
Proof.
  intros Hrun. destruct (supported_answer L env r Hrun) as [feePayer ->].
  eexists. split; [done|]. unfold starts.
  destruct (truthy (EVM_PRIVATE_KEY env)), (truthy (SVM_PRIVATE_KEY env));
    simpl.
  all: split; [compute_done|].
  all: split;
    [intros k Hk;
     repeat (apply elem_of_cons in Hk as [-> | Hk]; [by split|]);
     by apply elem_of_nil in Hk|].
  all: split;
    [intros k1 k2 H1 H2;
     repeat (apply elem_of_cons in H1 as [-> | H1];
             [repeat (apply elem_of_cons in H2 as [-> | H2];
                      [simpl;
                       first [done | by intros [? ?] | by intros _ [? ?]]|]);
              by apply elem_of_nil in H2|]);
     by apply elem_of_nil in H1|].
  all: split; [done|].
  all: intros Hstarted; first [discriminate Hstarted | done].
Qed.

Lemma supported_list_shape_witness :
  ∃ kinds,
    ({| status := 200;
        json := JsonSupported (evm_kinds ++ svm_kinds (Some "FeePayer111")) |}
     : Response Demo.sound)
    = {| status := 200; json := JsonSupported kinds |}
    ∧ NoDup (kind_network <$> kinds)
    ∧ length kinds = 10%nat.
Proof.
  destruct (supported_list_shape Demo.sound Demo.both_families
              {| status := 200;
                 json := JsonSupported
                           (evm_kinds ++ svm_kinds (Some "FeePayer111")) |}
              eq_refl)
    as (kinds & Heq & Hnodup & _ & _ & Hlength & _).
  exists kinds. split; [exact Heq|]. split; [exact Hnodup | exact Hlength].
Defined.




(** ** What the error record says about the endpoint *)

(** X17.  The [rpcUrl] field of an error record describes the configuration, not
    the request: when an EVM override exists for some network, a failed
    provisioning on an EVM network that has no override, and was therefore
    attempted on the default endpoint, is still logged as ["custom"]. *)
Theorem error_label_ignores_the_network
    (L : Library) (env : Env) (req : Request L) reqs payload (e : thrown) :
  validate L req = Normal (reqs, payload) →
  classify L (network reqs) = Some EVM →
  EVM_PRIVATE_KEY env ≠ "" →
  evm_rpcUrl (x402Config env) (network reqs) = None →
  SEPOLIA_RPC_URL env ≠ "" ∨ FILECOIN_CALIBRATION_RPC_URL env ≠ "" →
  createConnectedClient L (network reqs) None = Throw e →
  (run (post_verify L env req)).2
  = [ParseRequirements; ParsePayload;
     CreateConnectedClient (network reqs) None;
     ConsoleError "[VERIFY ERROR]" (message_or_string e) (stack_or_undefined e)
       (or_else (Some (network reqs)) "unknown") "custom" (clock L 0)].
Proof.
  intros Hvalid Hclass Hkey Hdefault Hoverride Hthrow.
  rewrite (verify_evm L env req reqs payload Hvalid Hclass Hkey).
  rewrite Hdefault, Hthrow. unfold caught, error_record, rpcUrl_label. simpl.
  destruct Hoverride as [H | H]; apply truthy_true in H; rewrite H;
    [done | by rewrite orb_true_r].
Qed.

Lemma error_label_ignores_the_network_witness :
  let req := Demo.request (fun _ => Throw Demo.rpc_error)
               (fun _ => Throw Demo.rpc_error) (Throw Demo.key_error) true
               (Throw Demo.rpc_error) (Throw Demo.rpc_error) "base" in
  (run (post_verify Demo.unreachable Demo.both_families req)).2
  = [ParseRequirements; ParsePayload; CreateConnectedClient "base" None;
     ConsoleError "[VERIFY ERROR]" "fetch failed"
       (Some "TypeError: fetch failed at node:internal") "base" "custom" 1000].
Proof.
  intros req.
  apply (error_label_ignores_the_network Demo.unreachable Demo.both_families
           req {| network := "base"; terms := tt |} tt Demo.rpc_error).
  - reflexivity.
  - reflexivity.
  - discriminate.
  - reflexivity.
  - left. discriminate.
  - reflexivity.
Defined.

(** ** Start-up *)

(** X18.  The [Networks:] line names exactly the configured families: it reads
    ["EVM"], ["Solana"] or ["EVM + Solana"] according to which keys are set,
    and it is empty only for an environment that the start-up guard turns
    away. *)
Theorem banner_names_the_configured_families (env : Env) :
  (networks_banner env = "EVM"
   ↔ EVM_PRIVATE_KEY env ≠ "" ∧ SVM_PRIVATE_KEY env = "")
  ∧ (networks_banner env = "Solana"
     ↔ EVM_PRIVATE_KEY env = "" ∧ SVM_PRIVATE_KEY env ≠ "")
  ∧ (networks_banner env = "EVM + Solana"
     ↔ EVM_PRIVATE_KEY env ≠ "" ∧ SVM_PRIVATE_KEY env ≠ "")
  ∧ (networks_banner env = "" ↔ starts env = false).
Proof.
  unfold networks_banner, starts.
  destruct (truthy (EVM_PRIVATE_KEY env)) eqn:Hevm;
    destruct (truthy (SVM_PRIVATE_KEY env)) eqn:Hsvm; simpl;
    repeat match goal with
           | H : truthy _ = true |- _ => apply truthy_true in H
           | H : truthy _ = false |- _ => apply truthy_false in H
           end;
    repeat split; try done; try discriminate;
    try (intros [? ?]; done).
Qed.
